(** * Elyvium deploy tool: a shallow embedding of [deploy_ui.py]

    The development follows the layout of the Python module: string and
    path helpers of the Python runtime that the module calls
    ([str.split], [str.join], [os.path.join], [os.path.abspath],
    [shlex.split]), the environment registry, the visible-logging helpers,
    the validation helpers, the command runner, the two deploy stages and
    the two API endpoints.

    Python [str] values are represented by their UTF-8 encoding as
    [string]; concatenation, prefix tests and splitting on an ASCII
    separator commute with that encoding. *)

From Stdlib Require Import ZArith String Ascii List Bool Lia DecimalString.
From stdpp Require Import base gmap strings list.

Open Scope string_scope.
Open Scope list_scope.
Open Scope stdpp_scope.

(** ** Python runtime helpers *)

Module Py.

(** The newline character of the f-strings. *)
Definition NL : string := String "010"%char EmptyString.

(** The NUL character, which no argument of a system call can hold. *)
Definition NUL : ascii := "000"%char.

(** [s.startswith(p)] *)
Fixpoint startswith (s p : string) {struct p} : bool :=
  match p with
  | EmptyString => true
  | String a p' =>
      match s with
      | EmptyString => false
      | String b s' => (Ascii.eqb a b && startswith s' p')%bool
      end
  end.

(** [s.endswith("/")] and friends, for a one-character suffix. *)
Fixpoint endswith_char (s : string) (c : ascii) : bool :=
  match s with
  | EmptyString => false
  | String a EmptyString => Ascii.eqb a c
  | String _ r => endswith_char r c
  end.

(** [sub in s] *)
Definition contains (s sub : string) : bool :=
  match String.index 0 sub s with
  | Some _ => true
  | None => false
  end.

(** [c * n] for a string [c]. *)
Fixpoint repeat_str (c : string) (n : nat) : string :=
  match n with
  | O => ""
  | S k => c +:+ repeat_str c k
  end.

(** [s.split(sep)] for a one-character separator: never the empty list. *)
Fixpoint split (sep : ascii) (s : string) : list string :=
  match s with
  | EmptyString => [""]
  | String c r =>
      if Ascii.eqb c sep then "" :: split sep r
      else match split sep r with
           | h :: t => String c h :: t
           | [] => [String c ""]
           end
  end.

(** [sep.join(l)] *)
Definition join (sep : string) (l : list string) : string :=
  String.concat sep l.

(** [str(n)] for an [int]. *)
Definition str_of_int (n : Z) : string :=
  NilZero.string_of_int (Z.to_int n).

(** Truthiness of an [Optional[str]]: [None] and [""] are falsy. *)
Definition truthy (o : option string) : bool :=
  match o with
  | None => false
  | Some EmptyString => false
  | Some (String _ _) => true
  end.

(** [x or ""] for an [Optional[str]]. *)
Definition or_empty (o : option string) : string :=
  match o with
  | None => ""
  | Some s => s
  end.

(** [not l] for a list. *)
Definition is_empty {A} (l : list A) : bool :=
  match l with
  | [] => true
  | _ :: _ => false
  end.

(** [c in s] for a character [c]. *)
Fixpoint has_char (c : ascii) (s : string) : bool :=
  match s with
  | EmptyString => false
  | String a r => (Ascii.eqb a c || has_char c r)%bool
  end.

(** [repr] of a list of strings that hold no quote, backslash or
    non-printable character (true of [ALLOWED_ROOTS]). *)
Definition repr_str_list (l : list string) : string :=
  "[" +:+ join ", " (map (fun s => "'" +:+ s +:+ "'") l) +:+ "]".

(** The UTF-8 encodings of the characters [str.isspace] accepts. *)
Definition whitespace_encodings : list (list ascii) :=
  (map (fun c => [c])
     ["009"; "010"; "011"; "012"; "013"; "028"; "029"; "030"; "031"; " "]
   ++ [ ["194"; "133"]; ["194"; "160"]; ["225"; "154"; "128"] ]
   ++ map (fun c => ["226"; "128"; c])
        ["128"; "129"; "130"; "131"; "132"; "133"; "134"; "135"; "136";
         "137"; "138"; "168"; "169"; "175"]
   ++ [ ["226"; "129"; "159"]; ["227"; "128"; "128"] ])%char.

Fixpoint drop_prefix (p s : list ascii) : option (list ascii) :=
  match p, s with
  | [], _ => Some s
  | a :: p', b :: s' => if Ascii.eqb a b then drop_prefix p' s' else None
  | _ :: _, [] => None
  end.

Fixpoint drop_first (ps : list (list ascii)) (s : list ascii)
  : option (list ascii) :=
  match ps with
  | [] => None
  | p :: ps' =>
      match drop_prefix p s with
      | Some r => Some r
      | None => drop_first ps' s
      end
  end.

(** Drops leading occurrences of the given byte sequences; [fuel] bounds
    the number of occurrences (the length of the text is enough). *)
Fixpoint drop_leading (ps : list (list ascii)) (fuel : nat)
    (s : list ascii) : list ascii :=
  match fuel with
  | O => s
  | S k =>
      match drop_first ps s with
      | Some r => drop_leading ps k r
      | None => s
      end
  end.

(** [s.lstrip()], [s.rstrip()], [s.strip()] *)
Definition lstrip (s : string) : string :=
  let l := list_ascii_of_string s in
  string_of_list_ascii (drop_leading whitespace_encodings (length l) l).
Definition rstrip (s : string) : string :=
  let l := rev (list_ascii_of_string s) in
  string_of_list_ascii
    (rev (drop_leading (map (@rev ascii) whitespace_encodings) (length l) l)).
Definition strip (s : string) : string := rstrip (lstrip s).

End Py.

(** ** [os.path] (posixpath) *)

Module OsPath.

Definition sep : ascii := "/"%char.

(** [os.path.join(a, b)] with two arguments. *)
Definition join (a b : string) : string :=
  if Py.startswith b "/" then b
  else if (String.eqb a "" || Py.endswith_char a sep)%bool then a +:+ b
  else a +:+ "/" +:+ b.

(** Number of leading slashes that [normpath] keeps: POSIX allows one or
    two, three or more collapse to one. *)
Definition initial_slashes (path : string) : nat :=
  if Py.startswith path "/" then
    if (Py.startswith path "//" && negb (Py.startswith path "///"))%bool
    then 2 else 1
  else 0.

(** One iteration of the loop over the components in [normpath]. *)
Definition normpath_step (slashes : nat) (new_comps : list string)
    (comp : string) : list string :=
  if (String.eqb comp "" || String.eqb comp ".")%bool then new_comps
  else if (negb (String.eqb comp "..")
           || (Nat.eqb slashes 0 && Py.is_empty new_comps)
           || match last new_comps with
              | Some l => String.eqb l ".."
              | None => false
              end)%bool
       then new_comps ++ [comp]
       else removelast new_comps.

(** [os.path.normpath(path)] *)
Definition normpath (path : string) : string :=
  if String.eqb path "" then "."
  else
    let slashes := initial_slashes path in
    let comps := fold_left (normpath_step slashes) (Py.split sep path) [] in
    let path' := Py.repeat_str "/" slashes +:+ Py.join "/" comps in
    if String.eqb path' "" then "." else path'.

(** [os.path.abspath(path)], with [cwd] the value of [os.getcwd()]. *)
Definition abspath (cwd path : string) : string :=
  normpath (if Py.startswith path "/" then path else join cwd path).

(** A text without separator. *)
Definition no_sep (x : string) : Prop := Py.has_char "/" x = false.

(** A file or directory name proper: not empty, not [.] or [..], and
    without a separator. *)
Definition proper_name (n : string) : bool :=
  (negb (String.eqb n "") && negb (String.eqb n ".")
   && negb (String.eqb n "..") && negb (Py.has_char sep n))%bool.

End OsPath.

(** ** Exceptions and results *)

(** The exceptions the module can end a call with: the [HTTPException]s it
    raises itself, and the library exceptions it lets through, since it
    has no [try]: the [ValueError] of [shlex.split], and from
    [subprocess.run] an [OSError], a [ValueError], an [IndexError] or a
    [UnicodeDecodeError] (in Python a subclass of [ValueError]). *)
Inductive Exception :=
| HTTPException (status_code : Z) (detail : string)
| ValueError (msg : string)
| OSError (msg : string)
| IndexError (msg : string)
| UnicodeDecodeError (msg : string).

Inductive Result (A : Type) :=
| Ok (a : A)
| Raise (e : Exception).
Arguments Ok {A} a.
Arguments Raise {A} e.

(** ** [shlex.split] (POSIX mode, [whitespace_split], no comment characters) *)

Module Shlex.

(** The lexer's [state]: [' '] between tokens, ['a'] inside a word, a
    quote character inside quotes, the escape character after a
    backslash (then [escapedstate] says where to return: ['a'], or the
    quote the backslash was read in). *)
Inductive lex_state :=
| InWhitespace
| InWord
| InQuote (q : ascii)
| InEscape (escapedstate : option ascii).

Definition squote : ascii := "039"%char.
Definition dquote : ascii := "034"%char.
Definition backslash : ascii := "092"%char.

Definition is_whitespace (c : ascii) : bool :=
  (Ascii.eqb c " " || Ascii.eqb c "009" || Ascii.eqb c "013"
   || Ascii.eqb c "010")%bool%char.
Definition is_quote (c : ascii) : bool :=
  (Ascii.eqb c squote || Ascii.eqb c dquote)%bool.
Definition is_escape (c : ascii) : bool := Ascii.eqb c backslash.
(** [escapedquotes]: only inside double quotes does a backslash escape. *)
Definition is_escapedquote (q : ascii) : bool := Ascii.eqb q dquote.

Definition push (token : string) (c : ascii) : string :=
  token +:+ String c EmptyString.

Fixpoint read_tokens (st : lex_state) (token : string) (input : string)
  : Result (list string) :=
  match input with
  | EmptyString =>
      match st with
      | InWhitespace => Ok []
      | InWord => Ok [token]
      | InQuote _ => Raise (ValueError "No closing quotation")
      | InEscape _ => Raise (ValueError "No escaped character")
      end
  | String c rest =>
      match st with
      | InWhitespace =>
          if is_whitespace c then read_tokens InWhitespace "" rest
          else if is_escape c then read_tokens (InEscape None) "" rest
          else if is_quote c then read_tokens (InQuote c) "" rest
          else read_tokens InWord (String c EmptyString) rest
      | InWord =>
          if is_whitespace c then
            match read_tokens InWhitespace "" rest with
            | Ok toks => Ok (token :: toks)
            | Raise e => Raise e
            end
          else if is_quote c then read_tokens (InQuote c) token rest
          else if is_escape c then read_tokens (InEscape None) token rest
          else read_tokens InWord (push token c) rest
      | InQuote q =>
          if Ascii.eqb c q then read_tokens InWord token rest
          else if (is_escape c && is_escapedquote q)%bool
               then read_tokens (InEscape (Some q)) token rest
          else read_tokens (InQuote q) (push token c) rest
      | InEscape None =>
          read_tokens InWord (push token c) rest
      | InEscape (Some q) =>
          if (negb (Ascii.eqb c backslash) && negb (Ascii.eqb c q))%bool
          then read_tokens (InQuote q) (push (push token backslash) c) rest
          else read_tokens (InQuote q) (push token c) rest
      end
  end.

(** [shlex.split(s)] *)
Definition split (s : string) : Result (list string) :=
  read_tokens InWhitespace "" s.

End Shlex.

(** ** Security guardrails and the environment allowlist *)

Definition ALLOWED_ROOTS : list string :=
  [ "/home/elyvium/projects/ecosystem/" ].

Record EnvConfig := {
  key : string;
  name : string;
  default_work_front_dir : string;
  default_work_back_dir : string;
  default_branch : string;
  front_deploy_script : option string;
  backend_compose_command : string
}.

Definition ENVS : list EnvConfig :=
  [ {| key := "TEST";
       name := "TEST";
       default_work_front_dir :=
         "/home/elyvium/projects/ecosystem/elyvium-ecosystem-frontend";
       default_work_back_dir :=
         "/home/elyvium/projects/ecosystem/elyvium-ecosystem";
       default_branch := "sprint/23";
       front_deploy_script := Some "./deploy.sh";
       backend_compose_command :=
         "docker compose -p elyvium-test --env-file .env.test up --build -d" |};
    {| key := "DEV";
       name := "DEV";
       default_work_front_dir :=
         "/home/elyvium/projects/ecosystem/elyvium-ecosystem-frontend";
       default_work_back_dir :=
         "/home/elyvium/projects/ecosystem/elyvium-ecosystem";
       default_branch := "sprint/23";
       front_deploy_script := None;
       backend_compose_command :=
         "docker compose --env-file .env.dev up --build -d" |} ].

(** [{e.key: e for e in envs}]: a later entry replaces an earlier one with
    the same key. *)
Definition dict_by_key (envs : list EnvConfig) : gmap string EnvConfig :=
  fold_left (fun m e => <[key e := e]> m) envs ∅.

Definition ENVS_BY_KEY : gmap string EnvConfig := dict_by_key ENVS.

(** ** API models *)

Record DeployRequest := {
  env_key : string;
  work_front_dir : string;
  work_back_dir : string;
  branch : string
}.

(** ** The world the module runs in *)

(** What [subprocess.run(..., text=True, capture_output=True)] returns. *)
Record CompletedProcess := {
  returncode : Z;
  stdout : option string;
  stderr : option string
}.

(** What one call of [subprocess.run(cmd, cwd=cwd, text=True,
    capture_output=True)] comes to. Either it returns a completed process,
    or it raises:
    - [SpawnError]: an [OSError], no process has run (the executable or
      the working directory is missing or may not be used);
    - [NulByte]: [ValueError('embedded null byte')], no process has run (an
      argument or the working directory holds a NUL character);
    - [EmptyArgv]: [IndexError('list index out of range')], no process has
      run (the argv is empty);
    - [DecodeError]: [UnicodeDecodeError]. The process has run to its end
      with exit status [status], zero or not, but what it wrote is not
      valid text in the locale's encoding; the exit status and the output
      do not reach the caller. *)
Inductive Spawn :=
| Spawned (p : CompletedProcess)
| SpawnError (msg : string)
| NulByte
| EmptyArgv
| DecodeError (status : Z) (msg : string).

(** The exception with which the call ends when it does not return. *)
Definition raised_by (r : Spawn) : option Exception :=
  match r with
  | Spawned _ => None
  | SpawnError msg => Some (OSError msg)
  | NulByte => Some (ValueError "embedded null byte")
  | EmptyArgv => Some (IndexError "list index out of range")
  | DecodeError _ msg => Some (UnicodeDecodeError msg)
  end.

(** The exit status of the process of the call, when one has run. *)
Definition process_status (r : Spawn) : option Z :=
  match r with
  | Spawned p => Some (returncode p)
  | DecodeError status _ => Some status
  | SpawnError _ | NulByte | EmptyArgv => None
  end.

(** Whether an argument or the working directory holds a NUL character. *)
Definition has_nul (cmd : list string) (cwd : string) : bool :=
  existsb (Py.has_char Py.NUL) (cwd :: cmd).

(** One call of [subprocess.run], as a command-execution spy records it. *)
Record Invocation := {
  inv_cmd : list string;
  inv_cwd : string;
  inv_result : Spawn
}.

Definition invocation_of (cmd : list string) (cwd : string) (r : Spawn)
  : Invocation :=
  {| inv_cmd := cmd; inv_cwd := cwd; inv_result := r |}.

(** The argv and the working directory of an invocation. *)
Definition call (i : Invocation) : list string * string :=
  (inv_cmd i, inv_cwd i).

(** The call has returned a completed process whose return code is
    zero. *)
Definition exited_zero (i : Invocation) : bool :=
  match inv_result i with
  | Spawned p => Z.eqb (returncode p) 0
  | SpawnError _ | NulByte | EmptyArgv | DecodeError _ _ => false
  end.

(** One filesystem precondition query with its answer. *)
Inductive FsCheck :=
| IsDir (path : string) (answer : bool)
| IsFile (path : string) (answer : bool).

Definition fs_answer (c : FsCheck) : bool :=
  match c with
  | IsDir _ a => a
  | IsFile _ a => a
  end.

(** ** Validation helper without side effects *)

(** [_is_under_allowed_roots(path)]; [cwd] is what [os.getcwd()] returns,
    which [os.path.abspath] reads for a relative path. *)
Definition _is_under_allowed_roots (cwd path : string) : bool :=
  let path := OsPath.abspath cwd path in
  existsb (fun root => Py.startswith path root) ALLOWED_ROOTS.

(** ** Response models *)

(** The dictionary [deploy] returns. *)
Record DeployResponse := {
  ok : bool;
  env : string;
  output : string
}.

(** One dictionary of the list [list_envs] returns. *)
Record EnvEntry := {
  entry_env_key : string;
  entry_name : string;
  entry_default_work_front_dir : string;
  entry_default_work_back_dir : string;
  entry_default_branch : string;
  entry_has_frontend : bool
}.

(** [list_envs()] over a table, and over the module's [ENVS]. *)
Definition list_envs_of (envs : list EnvConfig) : list EnvEntry :=
  map (fun e =>
         {| entry_env_key := key e;
            entry_name := name e;
            entry_default_work_front_dir := default_work_front_dir e;
            entry_default_work_back_dir := default_work_back_dir e;
            entry_default_branch := default_branch e;
            entry_has_frontend := Py.truthy (front_deploy_script e) |})
      envs.

Definition list_envs : list EnvEntry := list_envs_of ENVS.

(** ** Visible logging: constant parts *)

Definition banner_line : string := Py.repeat_str "█" 100.

Definition _cmd_block (cmd : list string) (cwd : string) : string :=
  Py.NL
  +:+ "┏━━━━━━━━━━━━━━━━━━━━━━━━━━━━━━━━━━━━━━━━━━━━━━━━━━━━━━━━━━━━━━━━━━━━━━━━━━━━━━━━━━━━━━━━━━━━┓" +:+ Py.NL
  +:+ "┃ COMMAND                                                                                    ┃" +:+ Py.NL
  +:+ "┣━━━━━━━━━━━━━━━━━━━━━━━━━━━━━━━━━━━━━━━━━━━━━━━━━━━━━━━━━━━━━━━━━━━━━━━━━━━━━━━━━━━━━━━━━━━━┫" +:+ Py.NL
  +:+ "┃ CWD : " +:+ cwd +:+ Py.NL
  +:+ "┃ CMD : " +:+ Py.join " " cmd +:+ Py.NL
  +:+ "┗━━━━━━━━━━━━━━━━━━━━━━━━━━━━━━━━━━━━━━━━━━━━━━━━━━━━━━━━━━━━━━━━━━━━━━━━━━━━━━━━━━━━━━━━━━━━┛" +:+ Py.NL.

Definition output_box_top : string := "┌──────────────────────────── OUTPUT ────────────────────────────┐".
Definition output_box_bottom : string := "└───────────────────────────────────────────────────────────────┘".

(** ** The texts the module builds

    Names for the texts that the functions below put together, used to
    state what they return. *)

(** The text [_banner(title)] returns when the clock reads [ts]. *)
Definition banner_text (ts title : string) : string :=
  Py.NL +:+ banner_line +:+ Py.NL +:+ "█ " +:+ ts +:+ " | " +:+ title
  +:+ Py.NL +:+ banner_line +:+ Py.NL.

(** [(p.stdout or "") + (p.stderr or "")] *)
Definition captured (p : CompletedProcess) : string :=
  Py.or_empty (stdout p) +:+ Py.or_empty (stderr p).

(** The detail of the [HTTPException] for a command that exited non-zero,
    raised when the clock reads [ts]. *)
Definition failure_detail (ts : string) (cmd : list string) (cwd : string)
    (p : CompletedProcess) : string :=
  banner_text ts "COMMAND FAILED ❌" +:+ _cmd_block cmd cwd
  +:+ "Exit Code: " +:+ Py.str_of_int (returncode p) +:+ Py.NL +:+ Py.NL
  +:+ captured p.

(** The detail of the [HTTPException] for a path outside the allowed
    roots. *)
Definition path_error_detail (p : string) : string :=
  "Path not allowed: " +:+ p +:+ Py.NL
  +:+ "Allowed roots: " +:+ Py.repr_str_list ALLOWED_ROOTS.

(** The line the frontend stage logs when the environment has no script. *)
Definition skip_marker : string :=
  "[Frontend] Skipped (not configured for this environment)" +:+ Py.NL.

Definition frontend_done : string :=
  Py.NL +:+ "[Frontend] Done ✅" +:+ Py.NL.

Definition backend_done : string :=
  Py.NL +:+ "[Backend] Done ✅" +:+ Py.NL.

(** The frontend stage's transcript when its script ran and printed [out];
    [b] is the stage banner. *)
Definition frontend_transcript (b : string) (work_front_dir : string)
    (script_path branch out : string) : string :=
  let log := b in
  let log := log +:+ "Frontend Directory : " +:+ work_front_dir +:+ Py.NL in
  let log := log +:+ "Deploy Script      : " +:+ script_path +:+ Py.NL in
  let log := log +:+ "Branch             : " +:+ branch +:+ Py.NL in
  let log := log +:+ _cmd_block ["bash"; script_path; branch] work_front_dir in
  let log := log +:+ out in
  log +:+ frontend_done.

(** The backend stage's transcript when its three commands ran and printed
    [out1], [out2], [out3]; [b] is the stage banner. *)
Definition backend_transcript (b : string) (env : EnvConfig)
    (work_back_dir branch : string) (compose_args : list string)
    (out1 out2 out3 : string) : string :=
  let log := b in
  let log := log +:+ "Backend Directory  : " +:+ work_back_dir +:+ Py.NL in
  let log := log +:+ "Branch             : " +:+ branch +:+ Py.NL in
  let log := log +:+ "Docker Compose     : " +:+ backend_compose_command env
                 +:+ Py.NL in
  let log := log +:+ _cmd_block ["git"; "fetch"; "origin"] work_back_dir in
  let log := log +:+ out1 in
  let log := log +:+ _cmd_block ["git"; "pull"; "origin"; branch]
                       work_back_dir in
  let log := log +:+ out2 in
  let log := log +:+ _cmd_block compose_args work_back_dir in
  let log := log +:+ out3 in
  log +:+ backend_done.

(** The opening of the request's transcript; [b] is the started banner. *)
Definition started_text (b : string) (req : DeployRequest) : string :=
  let log := "" in
  let log := log +:+ b in
  let log := log +:+ "work_front_dir: " +:+ work_front_dir req +:+ Py.NL in
  let log := log +:+ "work_back_dir : " +:+ work_back_dir req +:+ Py.NL in
  log +:+ "branch        : " +:+ branch req +:+ Py.NL.

(** The calls the backend stage makes when nothing stops it: the compose
    call is there when the compose string tokenizes. *)
Definition backend_plan (env : EnvConfig) (work_back_dir branch : string)
  : list (list string * string) :=
  [ (["git"; "fetch"; "origin"], work_back_dir);
    (["git"; "pull"; "origin"; branch], work_back_dir) ]
  ++ match Shlex.split (backend_compose_command env) with
     | Ok compose_args => [ (compose_args, work_back_dir) ]
     | Raise _ => []
     end.

(** The argv of the frontend deploy script's run. *)
Definition frontend_cmd (env : EnvConfig) (work_front_dir branch : string)
  : list string :=
  [ "bash";
    OsPath.join work_front_dir (Py.or_empty (front_deploy_script env));
    branch ].

(** ** The effectful part *)

(** The operating system as the module sees it: the injectable capability
    behind [os.getcwd], [os.path.isdir], [os.path.isfile],
    [subprocess.run] and [datetime.now]. *)
Class OS (World : Type) := {
  os_getcwd : World -> string;
  os_path_isdir : World -> string -> bool;
  os_path_isfile : World -> string -> bool;
  (** Running a command returns its result and the world it leaves. *)
  subprocess_run : list string -> string -> World -> Spawn * World;
  (** The text of [datetime.now().strftime(...)] at its n-th reading. *)
  clock : nat -> string;
  (** Two results do not depend on the world: [subprocess.run] takes the
      executable from [args[0]] and converts every argument and the
      working directory for the system call before it starts anything. *)
  empty_argv_refused :
    forall cwd w, fst (subprocess_run [] cwd w) = EmptyArgv;
  nul_byte_refused :
    forall cmd cwd w,
      cmd <> [] -> has_nul cmd cwd = true ->
      fst (subprocess_run cmd cwd w) = NulByte
}.

(** The state a request runs in: the world, the number of clock readings
    so far, and what an observer has recorded: the calls of
    [subprocess.run], the filesystem queries, the lines on the terminal. *)
Record State (World : Type) := {
  world : World;
  ticks : nat;
  invocations : list Invocation;
  fs_checks : list FsCheck;
  terminal : list string
}.
Arguments world {World} s.
Arguments ticks {World} s.
Arguments invocations {World} s.
Arguments fs_checks {World} s.
Arguments terminal {World} s.
Arguments Build_State {World} _ _ _ _ _.

Section Deploy.

Context {World : Type} {os : OS World}.

Definition M (A : Type) : Type := State World -> Result A * State World.

Definition ret {A} (a : A) : M A := fun s => (Ok a, s).
Definition raise {A} (e : Exception) : M A := fun s => (Raise e, s).
(** A library call that returns or raises without touching the state. *)
Definition lift {A} (r : Result A) : M A := fun s => (r, s).
Definition bind {A B} (m : M A) (k : A -> M B) : M B :=
  fun s =>
    match m s with
    | (Ok a, s') => k a s'
    | (Raise e, s') => (Raise e, s')
    end.

Notation "'let*' x ':=' c1 'in' c2" := (bind c1 (fun x => c2))
  (at level 10, x name, c1 at level 100, c2 at level 200).
Notation "c1 ;; c2" := (bind c1 (fun _ => c2))
  (at level 100, c2 at level 200, right associativity).

(** *** State updates *)

Definition tick (s : State World) : State World :=
  {| world := world s; ticks := S (ticks s);
     invocations := invocations s; fs_checks := fs_checks s;
     terminal := terminal s |}.

Definition printed (line : string) (s : State World) : State World :=
  {| world := world s; ticks := ticks s;
     invocations := invocations s; fs_checks := fs_checks s;
     terminal := terminal s ++ [line] |}.

Definition checked (c : FsCheck) (s : State World) : State World :=
  {| world := world s; ticks := ticks s;
     invocations := invocations s; fs_checks := fs_checks s ++ [c];
     terminal := terminal s |}.

Definition invoked (i : Invocation) (w : World) (s : State World)
  : State World :=
  {| world := w; ticks := ticks s;
     invocations := invocations s ++ [i]; fs_checks := fs_checks s;
     terminal := terminal s |}.

(** The state after the command runner has echoed [out] on the terminal. *)
Definition echoed (out : string) (s : State World) : State World :=
  if negb (String.eqb (Py.strip out) "") then
    printed (output_box_bottom +:+ Py.NL)
      (printed (Py.rstrip out +:+ Py.NL)
         (printed (output_box_top +:+ Py.NL) s))
  else s.

(** The state in which the frontend stage starts: the started banner has
    been printed and logged (two clock readings) and the three request
    lines printed. *)
Definition after_header (req : DeployRequest) (env : EnvConfig)
    (s : State World) : State World :=
  tick
    (printed (("branch        : " +:+ branch req) +:+ Py.NL)
       (printed (("work_back_dir : " +:+ work_back_dir req) +:+ Py.NL)
          (printed (("work_front_dir: " +:+ work_front_dir req) +:+ Py.NL)
             (printed
                (banner_text (clock (ticks s))
                   ("DEPLOY STARTED | " +:+ name env) +:+ Py.NL)
                (tick s))))).

(** The state a successful request ends in, from the state [s] in which
    the backend stage ended: the finished banner logged and printed. *)
Definition after_footer (env : EnvConfig) (s : State World) : State World :=
  printed
    (banner_text (clock (S (ticks s)))
       ("DEPLOY FINISHED ✅ | " +:+ name env) +:+ Py.NL)
    (tick (tick s)).

(** *** Primitive effects *)

Definition getcwd : M string := fun s => (Ok (os_getcwd (world s)), s).

(** [print(x)] *)
Definition print (x : string) : M unit :=
  fun s => (Ok tt, printed (x +:+ Py.NL) s).

(** [os.path.isdir(path)] *)
Definition isdir (path : string) : M bool :=
  fun s =>
    let a := os_path_isdir (world s) path in
    (Ok a, checked (IsDir path a) s).

(** [os.path.isfile(path)] *)
Definition isfile (path : string) : M bool :=
  fun s =>
    let a := os_path_isfile (world s) path in
    (Ok a, checked (IsFile path a) s).

(** [subprocess.run(cmd, cwd=cwd, text=True, capture_output=True)] *)
Definition run (cmd : list string) (cwd : string) : M CompletedProcess :=
  fun s =>
    let '(r, w) := subprocess_run cmd cwd (world s) in
    let s' := invoked (invocation_of cmd cwd r) w s in
    match r with
    | Spawned p => (Ok p, s')
    | SpawnError msg => (Raise (OSError msg), s')
    | NulByte => (Raise (ValueError "embedded null byte"), s')
    | EmptyArgv => (Raise (IndexError "list index out of range"), s')
    | DecodeError _ msg => (Raise (UnicodeDecodeError msg), s')
    end.

(** *** Visible logging helpers *)

Definition _ts : M string := fun s => (Ok (clock (ticks s)), tick s).

Definition _banner (title : string) : M string :=
  let line := banner_line in
  let* ts := _ts in
  ret (Py.NL +:+ line +:+ Py.NL +:+ "█ " +:+ ts +:+ " | " +:+ title
       +:+ Py.NL +:+ line +:+ Py.NL).

(** *** Validation helpers *)

Definition _assert_git_repo (path : string) : M unit :=
  let* d := isdir path in
  if negb d then
    raise (HTTPException 400 ("Directory not found: " +:+ path))
  else
    let* g := isdir (OsPath.join path ".git") in
    if negb g then
      raise (HTTPException 400
               ("Not a git repo (.git not found): " +:+ path))
    else ret tt.

Definition _assert_file_exists (path : string) : M unit :=
  let* f := isfile path in
  if negb f then raise (HTTPException 400 ("File not found: " +:+ path))
  else ret tt.

(** *** Command runner *)

Definition _run_cmd_capture (cmd : list string) (cwd : string) : M string :=
  print (_cmd_block cmd cwd) ;;
  let* p := run cmd cwd in
  let out := Py.or_empty (stdout p) +:+ Py.or_empty (stderr p) in
  (if negb (String.eqb (Py.strip out) "") then
     print output_box_top ;;
     print (Py.rstrip out) ;;
     print output_box_bottom
   else ret tt) ;;
  if negb (Z.eqb (returncode p) 0) then
    let* b := _banner "COMMAND FAILED ❌" in
    raise (HTTPException 500
             (b +:+ _cmd_block cmd cwd
              +:+ "Exit Code: " +:+ Py.str_of_int (returncode p)
              +:+ Py.NL +:+ Py.NL
              +:+ out))
  else ret out.

(** *** Deploy steps *)

Definition _deploy_frontend (env : EnvConfig) (work_front_dir branch : string)
  : M string :=
  let* b := _banner ("FRONTEND DEPLOY | " +:+ name env) in
  let log := b in
  if negb (Py.truthy (front_deploy_script env)) then
    let log := log
      +:+ "[Frontend] Skipped (not configured for this environment)"
      +:+ Py.NL in
    ret log
  else
    _assert_git_repo work_front_dir ;;
    let script_path :=
      OsPath.join work_front_dir (Py.or_empty (front_deploy_script env)) in
    _assert_file_exists script_path ;;
    let log := log +:+ "Frontend Directory : " +:+ work_front_dir +:+ Py.NL in
    let log := log +:+ "Deploy Script      : " +:+ script_path +:+ Py.NL in
    let log := log +:+ "Branch             : " +:+ branch +:+ Py.NL in
    let cmd := ["bash"; script_path; branch] in
    let log := log +:+ _cmd_block cmd work_front_dir in
    let* out := _run_cmd_capture cmd work_front_dir in
    let log := log +:+ out in
    let log := log +:+ Py.NL +:+ "[Frontend] Done ✅" +:+ Py.NL in
    ret log.

Definition _deploy_backend (env : EnvConfig) (work_back_dir branch : string)
  : M string :=
  let* b := _banner ("BACKEND DEPLOY | " +:+ name env) in
  let log := b in
  _assert_git_repo work_back_dir ;;
  let log := log +:+ "Backend Directory  : " +:+ work_back_dir +:+ Py.NL in
  let log := log +:+ "Branch             : " +:+ branch +:+ Py.NL in
  let log := log +:+ "Docker Compose     : " +:+ backend_compose_command env
                 +:+ Py.NL in
  let cmd1 := ["git"; "fetch"; "origin"] in
  let log := log +:+ _cmd_block cmd1 work_back_dir in
  let* out1 := _run_cmd_capture cmd1 work_back_dir in
  let log := log +:+ out1 in
  let cmd2 := ["git"; "pull"; "origin"; branch] in
  let log := log +:+ _cmd_block cmd2 work_back_dir in
  let* out2 := _run_cmd_capture cmd2 work_back_dir in
  let log := log +:+ out2 in
  let* compose_args := lift (Shlex.split (backend_compose_command env)) in
  let log := log +:+ _cmd_block compose_args work_back_dir in
  let* out3 := _run_cmd_capture compose_args work_back_dir in
  let log := log +:+ out3 in
  let log := log +:+ Py.NL +:+ "[Backend] Done ✅" +:+ Py.NL in
  ret log.

(** *** API endpoint [POST /api/deploy] *)

(** The [for p in [...]] loop of the guardrails. *)
Fixpoint check_paths (paths : list string) : M unit :=
  match paths with
  | [] => ret tt
  | p :: rest =>
      let* cwd := getcwd in
      if negb (_is_under_allowed_roots cwd p) then
        raise (HTTPException 400
                 ("Path not allowed: " +:+ p +:+ Py.NL
                  +:+ "Allowed roots: " +:+ Py.repr_str_list ALLOWED_ROOTS))
      else check_paths rest
  end.

Definition deploy (req : DeployRequest) : M DeployResponse :=
  match ENVS_BY_KEY !! env_key req with
  | None => raise (HTTPException 400 "Invalid env_key (not in allowlist).")
  | Some env =>
      check_paths [work_front_dir req; work_back_dir req] ;;
      let* b := _banner ("DEPLOY STARTED | " +:+ name env) in
      print b ;;
      print ("work_front_dir: " +:+ work_front_dir req) ;;
      print ("work_back_dir : " +:+ work_back_dir req) ;;
      print ("branch        : " +:+ branch req) ;;
      let log := "" in
      let* b := _banner ("DEPLOY STARTED | " +:+ name env) in
      let log := log +:+ b in
      let log := log +:+ "work_front_dir: " +:+ work_front_dir req +:+ Py.NL in
      let log := log +:+ "work_back_dir : " +:+ work_back_dir req +:+ Py.NL in
      let log := log +:+ "branch        : " +:+ branch req +:+ Py.NL in
      let* front := _deploy_frontend env (work_front_dir req) (branch req) in
      let log := log +:+ front in
      let* back := _deploy_backend env (work_back_dir req) (branch req) in
      let log := log +:+ back in
      let* b := _banner ("DEPLOY FINISHED ✅ | " +:+ name env) in
      let log := log +:+ b in
      let* b := _banner ("DEPLOY FINISHED ✅ | " +:+ name env) in
      print b ;;
      ret {| ok := true; env := name env; output := log |}
  end.

End Deploy.

(** ** A scripted world, to run the model on concrete requests *)

Module Scripted.

(** Directories and regular files that exist, the working directory of
    the server, and the result of each scripted command; a command that
    is not scripted exits zero without output. An empty argv and a NUL
    character are refused whatever the script says. Commands leave the
    filesystem as it is. *)
Record T := {
  cwd : string;
  dirs : list string;
  files : list string;
  script : list (list string * Spawn)
}.

Definition mem (x : string) (l : list string) : bool :=
  existsb (String.eqb x) l.

Definition silent : CompletedProcess :=
  {| returncode := 0; stdout := Some ""; stderr := Some "" |}.

Fixpoint find_cmd (cmd : list string) (l : list (list string * Spawn))
  : Spawn :=
  match l with
  | [] => Spawned silent
  | (c, r) :: rest =>
      if bool_decide (c = cmd) then r else find_cmd cmd rest
  end.

Definition answer (cmd : list string) (dir : string) (w : T) : Spawn :=
  match cmd with
  | [] => EmptyArgv
  | _ :: _ =>
      if has_nul cmd dir then NulByte else find_cmd cmd (script w)
  end.

#[global, refine] Instance os : OS T := {|
  os_getcwd w := cwd w;
  os_path_isdir w p := mem p (dirs w);
  os_path_isfile w p := mem p (files w);
  subprocess_run cmd dir w := (answer cmd dir w, w);
  clock n := "2024-05-0" +:+ Py.str_of_int (Z.of_nat (S n)) +:+ " 12:00:00"
|}.
Proof.
  - reflexivity.
  - intros [|a l] dir w nonempty nul; [now destruct nonempty|].
    cbn [answer fst]. now rewrite nul.
Defined.

Definition start (w : T) : State T :=
  {| world := w; ticks := 0; invocations := []; fs_checks := [];
     terminal := [] |}.

Definition deploy (req : DeployRequest) (w : T)
  : Result DeployResponse * State T :=
  deploy req (start w).

Definition exit_with (code : Z) (out err : string) : Spawn :=
  Spawned {| returncode := code; stdout := Some out; stderr := Some err |}.

(** Sample data: the directories of the registered environments, a
    healthy checkout, and requests against it. *)
Definition front_dir : string :=
  "/home/elyvium/projects/ecosystem/elyvium-ecosystem-frontend".
Definition back_dir : string :=
  "/home/elyvium/projects/ecosystem/elyvium-ecosystem".

Definition healthy (commands : list (list string * Spawn)) : T :=
  {| cwd := "/srv/deploy-tool";
     dirs := [ front_dir; front_dir +:+ "/.git";
               back_dir; back_dir +:+ "/.git" ];
     files := [ front_dir +:+ "/./deploy.sh" ];
     script := commands |}.

Definition request (k front back br : string) : DeployRequest :=
  {| env_key := k; work_front_dir := front; work_back_dir := back;
     branch := br |}.

Definition dev_env : EnvConfig :=
  {| key := "DEV";
     name := "DEV";
     default_work_front_dir := front_dir;
     default_work_back_dir := back_dir;
     default_branch := "sprint/23";
     front_deploy_script := None;
     backend_compose_command :=
       "docker compose --env-file .env.dev up --build -d" |}.

Definition test_env : EnvConfig :=
  {| key := "TEST";
     name := "TEST";
     default_work_front_dir := front_dir;
     default_work_back_dir := back_dir;
     default_branch := "sprint/23";
     front_deploy_script := Some "./deploy.sh";
     backend_compose_command :=
       "docker compose -p elyvium-test --env-file .env.test up --build -d" |}.

Definition git_fetch : list string := ["git"; "fetch"; "origin"].
Definition git_pull (br : string) : list string :=
  ["git"; "pull"; "origin"; br].
Definition dev_compose : list string :=
  ["docker"; "compose"; "--env-file"; ".env.dev"; "up"; "--build"; "-d"].

(** All commands succeed; the compose command prints [Started]. *)
Definition all_fine : T :=
  healthy [ (git_fetch, exit_with 0 "fetched" "");
            (dev_compose, exit_with 0 "Started" "") ].

(** The fetch succeeds, the pull exits 1 with [conflict] on stderr. *)
Definition pull_conflict : T :=
  healthy [ (git_fetch, exit_with 0 "fetched" "");
            (git_pull "main", exit_with 1 "" "conflict") ].

(** The fetch itself exits 128. *)
Definition fetch_fails : T :=
  healthy [ (git_fetch, exit_with 128 "" "fatal: unable to access") ].

End Scripted.

(** ** Further notions, for statements about whole runs *)

(** The calls the frontend stage makes when nothing stops it. *)
Definition frontend_plan (env : EnvConfig) (work_front_dir branch : string)
  : list (list string * string) :=
  if Py.truthy (front_deploy_script env)
  then [ (frontend_cmd env work_front_dir branch, work_front_dir) ]
  else [].

(** The calls of a whole request when nothing stops it. *)
Definition request_plan (env : EnvConfig) (req : DeployRequest)
  : list (list string * string) :=
  frontend_plan env (work_front_dir req) (branch req)
  ++ backend_plan env (work_back_dir req) (branch req).

(** The lines the command runner echoes on the terminal for an output. *)
Definition echo_lines (out : string) : list string :=
  if negb (String.eqb (Py.strip out) "") then
    [ output_box_top +:+ Py.NL; Py.rstrip out +:+ Py.NL;
      output_box_bottom +:+ Py.NL ]
  else [].

(** What the command runner prints for one invocation: the command block,
    and the echo of the captured output when the call has returned. *)
Definition terminal_lines_of (i : Invocation) : list string :=
  (_cmd_block (inv_cmd i) (inv_cwd i) +:+ Py.NL)
  :: match inv_result i with
     | Spawned p => echo_lines (captured p)
     | SpawnError _ | NulByte | EmptyArgv | DecodeError _ _ => []
     end.

(** The four lines [deploy] prints when a request has passed validation;
    [ts] is the clock reading of the banner. *)
Definition started_lines (ts : string) (env : EnvConfig) (req : DeployRequest)
  : list string :=
  [ banner_text ts ("DEPLOY STARTED | " +:+ name env) +:+ Py.NL;
    ("work_front_dir: " +:+ work_front_dir req) +:+ Py.NL;
    ("work_back_dir : " +:+ work_back_dir req) +:+ Py.NL;
    ("branch        : " +:+ branch req) +:+ Py.NL ].

(** A character [shlex] reads as part of a word, and a word made of such
    characters. *)
Definition plain_char (c : ascii) : bool :=
  negb (Shlex.is_whitespace c || Shlex.is_quote c || Shlex.is_escape c).

Fixpoint plain_text (w : string) : bool :=
  match w with
  | EmptyString => true
  | String c r => (plain_char c && plain_text r)%bool
  end.

Definition plain_word (w : string) : bool :=
  (negb (String.eqb w "") && plain_text w)%bool.

Section Runs.
Context {World : Type} {os : OS World}.

(** The filesystem checks the stages make when none fails, answered in the
    world [w]. *)
Definition git_repo_checks (w : World) (path : string) : list FsCheck :=
  [ IsDir path (os_path_isdir w path);
    IsDir (OsPath.join path ".git")
      (os_path_isdir w (OsPath.join path ".git")) ].

Definition frontend_checks (w : World) (env : EnvConfig)
    (work_front_dir : string) : list FsCheck :=
  if Py.truthy (front_deploy_script env) then
    git_repo_checks w work_front_dir
    ++ [ IsFile
           (OsPath.join work_front_dir (Py.or_empty (front_deploy_script env)))
           (os_path_isfile w
              (OsPath.join work_front_dir
                 (Py.or_empty (front_deploy_script env)))) ]
  else [].

End Runs.

Module Samples.

(** An environment whose compose command has an unbalanced quote. *)
Definition broken_env : EnvConfig :=
  {| key := "BROKEN";
     name := "BROKEN";
     default_work_front_dir := Scripted.front_dir;
     default_work_back_dir := Scripted.back_dir;
     default_branch := "main";
     front_deploy_script := Some "";
     backend_compose_command := "docker compose 'up" |}.

Definition dev_request : DeployRequest :=
  Scripted.request "DEV" Scripted.front_dir Scripted.back_dir "main".

Definition test_request : DeployRequest :=
  Scripted.request "TEST" Scripted.front_dir Scripted.back_dir "main".

(** The frontend script cannot be spawned. *)
Definition no_bash : Scripted.T :=
  Scripted.healthy
    [ (["bash"; Scripted.front_dir +:+ "/./deploy.sh"; "main"],
       SpawnError "[Errno 2] No such file or directory: 'bash'") ].

(** The fetch exits zero, but it has written a byte that is no UTF-8. *)
Definition binary_output : Scripted.T :=
  Scripted.healthy
    [ (Scripted.git_fetch,
       DecodeError 0
         "'utf-8' codec can't decode byte 0xff in position 0: invalid start byte") ].

(** Two argv with the same text when joined by spaces; both exit 1 with
    the same output. *)
Definition compose_fails : Scripted.T :=
  Scripted.healthy
    [ (["docker"; "compose up"], Scripted.exit_with 1 "" "no such service");
      (["docker"; "compose"; "up"],
       Scripted.exit_with 1 "" "no such service") ].

(** A request whose branch holds a NUL character. *)
Definition nul_branch : string := "main" +:+ String Py.NUL "x".
Definition nul_request : DeployRequest :=
  Scripted.request "DEV" Scripted.front_dir Scripted.back_dir nul_branch.

End Samples.

(** * Facts *)

(** ** The runtime helpers on sample inputs *)

Example normpath_ex1 : OsPath.normpath "/a//b/./c/../d/" = "/a/b/d".
Proof. reflexivity. Qed.
Example normpath_ex2 : OsPath.normpath "//a/../../b" = "//b".
Proof. reflexivity. Qed.
Example normpath_ex3 : OsPath.normpath "a/../../b" = "../b".
Proof. reflexivity. Qed.
Example normpath_ex4 : OsPath.normpath "///a" = "/a".
Proof. reflexivity. Qed.
Example str_ex : Py.str_of_int (-9) = "-9" /\ Py.str_of_int 0 = "0" /\ Py.str_of_int 127 = "127".
Proof. repeat split; reflexivity. Qed.
Example repr_ex : Py.repr_str_list ["/a/"; "b"] = "['/a/', 'b']".
Proof. reflexivity. Qed.
Example split_ex : Py.split "/" "/a//b/" = [""; "a"; ""; "b"; ""].
Proof. reflexivity. Qed.
Example shlex_ex1 :
  Shlex.split "docker compose --env-file .env.dev up --build -d"
  = Ok ["docker"; "compose"; "--env-file"; ".env.dev"; "up"; "--build"; "-d"].
Proof. reflexivity. Qed.
Example shlex_ex2 : Shlex.split "a 'b c'  d\ e ''" = Ok ["a"; "b c"; "d e"; ""].
Proof. reflexivity. Qed.
Example shlex_ex3 : Shlex.split "a 'b" = Raise (ValueError "No closing quotation").
Proof. reflexivity. Qed.
Example lookup_ex : name <$> (ENVS_BY_KEY !! "DEV") = Some "DEV" /\ ENVS_BY_KEY !! "PROD" = None.
Proof. split; reflexivity. Qed.
Example contains_ex :
  Py.contains "git pull origin" "pull" = true
  /\ Py.contains "git pull origin" "fetch" = false.
Proof. split; reflexivity. Qed.
Example strip_ex : Py.strip "  a b   " = "a b" /\ Py.rstrip " x  " = " x" /\ Py.lstrip "   " = "".
Proof. repeat split; reflexivity. Qed.

(** ** Strings *)

Section StringFacts.

Lemma append_nil_l (s : string) : "" +:+ s = s.
Proof. reflexivity. Qed.

Lemma append_cons (c : ascii) (a b : string) :
  String c a +:+ b = String c (a +:+ b).
Proof. reflexivity. Qed.

Lemma append_assoc (a b c : string) : (a +:+ b) +:+ c = a +:+ (b +:+ c).
Proof.
  induction a as [|x a IH]; [reflexivity|].
  rewrite !append_cons. now rewrite IH.
Qed.

Lemma startswith_cons (a b : ascii) (s p : string) :
  Py.startswith (String b s) (String a p)
  = (Ascii.eqb a b && Py.startswith s p)%bool.
Proof. reflexivity. Qed.

Lemma startswith_append (a b : string) : Py.startswith (a +:+ b) a = true.
Proof.
  induction a as [|c a IH]; simpl; [reflexivity|].
  now rewrite Ascii.eqb_refl.
Qed.

Lemma startswith_slash_no_sep (s : string) :
  Py.has_char "/" s = false -> Py.startswith s "/" = false.
Proof.
  destruct s as [|c r]; [reflexivity|].
  cbn [Py.has_char Py.startswith].
  intros H. apply orb_false_elim in H as [H _].
  rewrite Ascii.eqb_sym, H. reflexivity.
Qed.

Lemma split_no_sep (s : string) :
  Py.has_char "/" s = false -> Py.split "/" s = [s].
Proof.
  induction s as [|c r IH]; simpl; [reflexivity|].
  intros H. apply orb_false_elim in H as [Hc Hr].
  rewrite Hc, (IH Hr). reflexivity.
Qed.

Lemma split_pieces_no_sep (s : string) :
  Forall (fun x => Py.has_char "/" x = false) (Py.split "/" s).
Proof.
  induction s as [|c r IH]; simpl.
  - repeat constructor.
  - destruct (Ascii.eqb c "/") eqn:E.
    + constructor; [reflexivity | exact IH].
    + destruct (Py.split "/" r) as [|h t].
      * repeat constructor. simpl. now rewrite E.
      * inversion IH; subst. constructor; [|assumption].
        simpl. now rewrite E.
Qed.

Lemma join_cons (x y : string) (l : list string) :
  Py.join "/" (x :: y :: l) = x +:+ "/" +:+ Py.join "/" (y :: l).
Proof. reflexivity. Qed.

Lemma split_append_sep (a b : string) :
  Py.has_char "/" a = false ->
  Py.split "/" (a +:+ "/" +:+ b) = a :: Py.split "/" b.
Proof.
  induction a as [|c a IH]; simpl; [reflexivity|].
  intros H. apply orb_false_elim in H as [Hc Ha].
  rewrite Hc, (IH Ha). reflexivity.
Qed.

Lemma split_join (names : list string) :
  names <> [] ->
  Forall (fun x => Py.has_char "/" x = false) names ->
  Py.split "/" (Py.join "/" names) = names.
Proof.
  induction names as [|x [|y l] IH]; intros Hne Hall.
  - congruence.
  - inversion Hall; subst. now apply split_no_sep.
  - inversion Hall; subst.
    rewrite join_cons, split_append_sep by assumption.
    f_equal. now apply IH.
Qed.

End StringFacts.

(** ** The path guard *)

Section PathGuardFacts.

Lemma proper_name_spec (n : string) :
  OsPath.proper_name n = true ->
  n <> "" /\ String.eqb n "." = false /\ String.eqb n ".." = false
  /\ OsPath.no_sep n.
Proof.
  unfold OsPath.proper_name, OsPath.no_sep, OsPath.sep. intros H.
  repeat (apply andb_prop in H as [H ?]).
  repeat match goal with
         | h : negb _ = true |- _ => apply negb_true_iff in h
         end.
  repeat split; try assumption.
  intros ->. discriminate.
Qed.

(** A proper component is appended, whatever came before. *)
Lemma normpath_step_proper (k : nat) (acc : list string) (n : string) :
  OsPath.proper_name n = true ->
  OsPath.normpath_step k acc n = acc ++ [n].
Proof.
  intros H. apply proper_name_spec in H as (Hne & Hdot & Hdd & _).
  unfold OsPath.normpath_step.
  destruct n as [|c r]; [congruence|].
  rewrite Hdot, Hdd. reflexivity.
Qed.

Lemma fold_normpath_proper (k : nat) (names acc : list string) :
  Forall (fun n => OsPath.proper_name n = true) names ->
  fold_left (OsPath.normpath_step k) names acc = acc ++ names.
Proof.
  revert acc. induction names as [|n names IH]; intros acc H; simpl.
  - now rewrite app_nil_r.
  - inversion H; subst.
    rewrite normpath_step_proper, IH by assumption.
    now rewrite <- app_assoc.
Qed.

(** Under an absolute path, what [normpath] collects are proper names. *)
Lemma fold_normpath_absolute (k : nat) (comps acc : list string) :
  k <> 0 ->
  Forall OsPath.no_sep comps ->
  Forall (fun n => OsPath.proper_name n = true) acc ->
  Forall (fun n => OsPath.proper_name n = true)
         (fold_left (OsPath.normpath_step k) comps acc).
Proof.
  intros Hk. revert acc.
  induction comps as [|c comps IH]; intros acc Hc Hacc; simpl; [assumption|].
  inversion Hc as [|? ? Hc1 Hc2]; subst. apply IH; [assumption|].
  unfold OsPath.normpath_step.
  destruct (String.eqb c "") eqn:E1; [assumption|].
  destruct (String.eqb c ".") eqn:E2; [assumption|]. simpl.
  destruct (String.eqb c "..") eqn:E3; simpl.
  - destruct k as [|k]; [congruence|]. simpl.
    destruct (last acc) as [l|] eqn:El.
    + assert (Hl : OsPath.proper_name l = true).
      { apply last_Some in El as [acc' ->].
        apply Forall_app in Hacc as [_ Hl]. now inversion Hl. }
      apply proper_name_spec in Hl as (_ & _ & -> & _).
      destruct acc as [|a acc] using rev_ind; [constructor|].
      rewrite removelast_last. now apply Forall_app in Hacc as [? _].
    + destruct acc as [|a acc] using rev_ind; [constructor|].
      rewrite removelast_last. now apply Forall_app in Hacc as [? _].
  - apply Forall_app. split; [assumption|]. repeat constructor.
    unfold OsPath.proper_name, OsPath.sep. rewrite E1, E2, E3.
    simpl. unfold OsPath.no_sep in Hc1. now rewrite Hc1.
Qed.

(** Peeling one component off a joined path that starts with [a/]. *)
Lemma startswith_join_peel (a b c : string) (cs : list string) :
  OsPath.no_sep a -> OsPath.no_sep c ->
  Py.startswith (Py.join "/" (c :: cs)) (a +:+ "/" +:+ b) = true ->
  c = a /\ cs <> [] /\ Py.startswith (Py.join "/" cs) b = true.
Proof.
  unfold OsPath.no_sep. revert c. induction a as [|x a IH]; intros c Ha Hc H.
  - destruct c as [|y c].
    + destruct cs as [|d cs]; [discriminate|].
      rewrite join_cons, append_nil_l, !append_cons, !append_nil_l,
        startswith_cons in H.
      apply andb_prop in H as [_ H]. repeat split; [congruence | exact H].
    + cbn [Py.has_char] in Hc. apply orb_false_elim in Hc as [Hy _].
      assert (E : Py.join "/" (String y c :: cs)
                  = String y (Py.join "/" (c :: cs))).
      { destruct cs; reflexivity. }
      rewrite E, append_nil_l, append_cons, startswith_cons in H.
      rewrite Ascii.eqb_sym, Hy in H. discriminate.
  - cbn [Py.has_char] in Ha. apply orb_false_elim in Ha as [Hx Ha].
    destruct c as [|y c].
    + destruct cs as [|d cs]; [discriminate|].
      rewrite join_cons, append_nil_l, !append_cons, startswith_cons in H.
      rewrite Hx in H. discriminate.
    + cbn [Py.has_char] in Hc. apply orb_false_elim in Hc as [Hy Hc].
      assert (E : Py.join "/" (String y c :: cs)
                  = String y (Py.join "/" (c :: cs))).
      { destruct cs; reflexivity. }
      rewrite E, append_cons, startswith_cons in H.
      apply andb_prop in H as [Hxy H].
      apply Ascii.eqb_eq in Hxy as ->.
      destruct (IH c Ha Hc H) as (-> & ? & ?). auto.
Qed.

Lemma startswith_app_both (a x y : string) :
  Py.startswith (a +:+ x) (a +:+ y) = Py.startswith x y.
Proof.
  induction a as [|c a IH]; [reflexivity|].
  rewrite !append_cons, startswith_cons, Ascii.eqb_refl. exact IH.
Qed.

Lemma has_char_append (c : ascii) (a b : string) :
  Py.has_char c (a +:+ b) = (Py.has_char c a || Py.has_char c b)%bool.
Proof.
  induction a as [|x a IH]; [reflexivity|].
  rewrite append_cons. cbn [Py.has_char]. rewrite IH. apply orb_assoc.
Qed.

(** The joined text of proper names starts with no separator. *)
Lemma join_proper_no_leading_sep (n : string) (names : list string) :
  n <> "" -> OsPath.no_sep n ->
  Py.startswith (Py.join "/" (n :: names)) "/" = false.
Proof.
  intros Hne Hn. destruct n as [|c r]; [congruence|].
  assert (E : Py.join "/" (String c r :: names)
              = String c (Py.join "/" (r :: names))).
  { destruct names; reflexivity. }
  rewrite E, startswith_cons.
  unfold OsPath.no_sep in Hn. cbn [Py.has_char] in Hn.
  apply orb_false_elim in Hn as [Hc _].
  now rewrite Ascii.eqb_sym, Hc.
Qed.

(** [normpath] leaves a canonical absolute path as it is. *)
Lemma normpath_canonical (names : list string) :
  names <> [] ->
  Forall (fun n => OsPath.proper_name n = true) names ->
  OsPath.normpath ("/" +:+ Py.join "/" names) = "/" +:+ Py.join "/" names.
Proof.
  intros Hne Hall.
  destruct names as [|n names]; [congruence|].
  pose proof Hall as Hn. apply Forall_inv in Hn.
  apply proper_name_spec in Hn as (Hn0 & _ & _ & Hn).
  unfold OsPath.normpath.
  rewrite append_cons, append_nil_l.
  change (String "/" (Py.join "/" (n :: names)) =? "") with false.
  cbv iota.
  assert (Hs : OsPath.initial_slashes (String "/" (Py.join "/" (n :: names))) = 1).
  { unfold OsPath.initial_slashes.
    rewrite !startswith_cons.
    rewrite (join_proper_no_leading_sep n names Hn0 Hn). reflexivity. }
  rewrite Hs.
  change (String "/" (Py.join "/" (n :: names)))
    with ("" +:+ "/" +:+ Py.join "/" (n :: names)).
  unfold OsPath.sep. rewrite split_append_sep by reflexivity.
  rewrite split_join; [| congruence |].
  2:{ eapply Forall_impl; [exact Hall|]. intros x Hx.
      now apply proper_name_spec in Hx as (_ & _ & _ & ?). }
  change (fold_left (OsPath.normpath_step 1) ("" :: n :: names) [])
    with (fold_left (OsPath.normpath_step 1) (n :: names) []).
  rewrite fold_normpath_proper by assumption.
  rewrite app_nil_l.
  change (Py.repeat_str "/" 1 +:+ Py.join "/" (n :: names))
    with (String "/" (Py.join "/" (n :: names))).
  reflexivity.
Qed.


Lemma abspath_canonical (cwd : string) (names : list string) :
  names <> [] ->
  Forall (fun n => OsPath.proper_name n = true) names ->
  OsPath.abspath cwd ("/" +:+ Py.join "/" names) = "/" +:+ Py.join "/" names.
Proof.
  intros Hne Hall. unfold OsPath.abspath.
  rewrite append_cons, append_nil_l, startswith_cons.
  change (String "/" ?x) with ("/" +:+ x).
  now apply normpath_canonical.
Qed.

Lemma guard_accepts_descendant (cwd : string) (names : list string) :
  names <> [] ->
  Forall (fun n => OsPath.proper_name n = true) names ->
  _is_under_allowed_roots cwd
    ("/home/elyvium/projects/ecosystem/" +:+ Py.join "/" names) = true.
Proof.
  intros Hne Hall.
  assert (E : "/home/elyvium/projects/ecosystem/" +:+ Py.join "/" names
              = "/" +:+ Py.join "/"
                  (["home"; "elyvium"; "projects"; "ecosystem"] ++ names)).
  { destruct names; [congruence | reflexivity]. }
  unfold _is_under_allowed_roots, ALLOWED_ROOTS.
  rewrite E, abspath_canonical, <- E.
  - cbn [existsb]. now rewrite startswith_append.
  - discriminate.
  - apply Forall_app. split; [|assumption]. repeat constructor.
Qed.

Lemma guard_rejects_name_extension (cwd suffix : string) :
  OsPath.no_sep suffix ->
  _is_under_allowed_roots cwd
    ("/home/elyvium/projects/ecosystem" +:+ suffix) = false.
Proof.
  intros Hs.
  assert (E : "/home/elyvium/projects/ecosystem" +:+ suffix
              = "/" +:+ Py.join "/"
                  ["home"; "elyvium"; "projects"; "ecosystem" +:+ suffix]).
  { reflexivity. }
  unfold _is_under_allowed_roots, ALLOWED_ROOTS.
  rewrite E, abspath_canonical, <- E.
  - cbn [existsb].
    change "/home/elyvium/projects/ecosystem/"
      with ("/home/elyvium/projects/ecosystem" +:+ "/").
    rewrite startswith_app_both, startswith_slash_no_sep; auto.
  - discriminate.
  - repeat constructor.
    unfold OsPath.proper_name, OsPath.sep.
    rewrite has_char_append. unfold OsPath.no_sep in Hs. rewrite Hs. reflexivity.
Qed.

(** What [normpath] collects is never empty and holds no separator. *)
Lemma fold_normpath_pieces (k : nat) (comps acc : list string) :
  Forall OsPath.no_sep comps ->
  Forall (fun n => n <> "" /\ OsPath.no_sep n) acc ->
  Forall (fun n => n <> "" /\ OsPath.no_sep n)
         (fold_left (OsPath.normpath_step k) comps acc).
Proof.
  revert acc.
  induction comps as [|c comps IH]; intros acc Hc Hacc; simpl; [assumption|].
  inversion Hc as [|? ? Hc1 Hc2]; subst. apply IH; [assumption|].
  unfold OsPath.normpath_step.
  destruct (String.eqb c "") eqn:E1; [assumption|].
  destruct (String.eqb c "."); [assumption|]. cbn [orb].
  match goal with |- context [if ?b then _ else _] => destruct b end.
  - apply Forall_app. split; [assumption|]. repeat constructor; [|assumption].
    intros ->. discriminate.
  - destruct acc as [|a acc] using rev_ind; [constructor|].
    rewrite removelast_last. now apply Forall_app in Hacc as [? _].
Qed.

Lemma guard_only_descendants (cwd path : string) :
  _is_under_allowed_roots cwd path = true ->
  exists names,
    names <> []
    /\ Forall (fun n => OsPath.proper_name n = true) names
    /\ OsPath.abspath cwd path
       = "/home/elyvium/projects/ecosystem/" +:+ Py.join "/" names.
Proof.
  unfold _is_under_allowed_roots, ALLOWED_ROOTS, OsPath.abspath.
  generalize (if Py.startswith path "/" then path else OsPath.join cwd path).
  clear cwd path. intros p. cbn [existsb]. rewrite orb_false_r.
  unfold OsPath.normpath.
  destruct (String.eqb p ""); [discriminate|].
  pose proof (split_pieces_no_sep p) as Hp.
  set (k := OsPath.initial_slashes p).
  assert (Hk : k = 0 \/ k = 1 \/ k = 2).
  { unfold k, OsPath.initial_slashes.
    repeat match goal with |- context [if ?b then _ else _] => destruct b end;
      auto. }
  unfold OsPath.sep.
  pose proof (fold_normpath_pieces k _ [] Hp ltac:(constructor)) as Hpieces.
  assert (Hproper : k <> 0 ->
            Forall (fun n => OsPath.proper_name n = true)
              (fold_left (OsPath.normpath_step k) (Py.split "/" p) [])).
  { intros Hk0. apply fold_normpath_absolute; auto. }
  destruct (fold_left (OsPath.normpath_step k) (Py.split "/" p) [])
    as [|c cs] eqn:Ec.
  { destruct Hk as [->|[->| ->]]; discriminate. }
  destruct Hk as [->|[->| ->]].
  - (* relative result *)
    apply Forall_inv in Hpieces as [Hc0 Hc].
    change (Py.repeat_str "/" 0 +:+ ?x) with x.
    intros H. exfalso.
    destruct (Py.join "/" (c :: cs) =? ""); [discriminate|].
    pose proof (join_proper_no_leading_sep c cs Hc0 Hc) as Hno.
    change "/home/elyvium/projects/ecosystem/"
      with ("/" +:+ "home/elyvium/projects/ecosystem/") in H.
    destruct (Py.join "/" (c :: cs)) as [|x r]; [discriminate|].
    rewrite append_cons, startswith_cons in H.
    rewrite startswith_cons in Hno.
    apply andb_prop in H as [H _]. cbn [Py.startswith] in Hno.
    rewrite andb_true_r in Hno. congruence.
  - change (Py.repeat_str "/" 1 +:+ ?x) with (String "/" x).
    cbn [String.eqb]. 
    change "/home/elyvium/projects/ecosystem/"
      with (String "/" ("home" +:+ "/" +:+ "elyvium" +:+ "/" +:+ "projects"
                        +:+ "/" +:+ "ecosystem" +:+ "/" +:+ "")) at 1.
    rewrite startswith_cons. cbn [Ascii.eqb Bool.eqb andb].
    intros H. specialize (Hproper ltac:(discriminate)).
    assert (Hsep : Forall OsPath.no_sep (c :: cs)).
    { eapply Forall_impl; [exact Hpieces|]. now intros ? [_ ?]. }
    inversion Hsep as [|? ? Hc Hcs]; subst.
    apply startswith_join_peel in H as (-> & Hne1 & H); [| reflexivity | assumption].
    destruct cs as [|c1 cs]; [congruence|].
    inversion Hcs as [|? ? Hc1 Hcs1]; subst.
    apply startswith_join_peel in H as (-> & Hne2 & H); [| reflexivity | assumption].
    destruct cs as [|c2 cs]; [congruence|].
    inversion Hcs1 as [|? ? Hc2 Hcs2]; subst.
    apply startswith_join_peel in H as (-> & Hne3 & H); [| reflexivity | assumption].
    destruct cs as [|c3 cs]; [congruence|].
    inversion Hcs2 as [|? ? Hc3 Hcs3]; subst.
    apply startswith_join_peel in H as (-> & Hne4 & H); [| reflexivity | assumption].
    exists cs. split; [assumption|]. split.
    + do 4 apply Forall_inv_tail in Hproper. exact Hproper.
    + destruct cs; [congruence | reflexivity].
  - change (Py.repeat_str "/" 2 +:+ ?x) with (String "/" (String "/" x)).
    cbn [String.eqb]. 
    change "/home/elyvium/projects/ecosystem/"
      with (String "/" (String "h" "ome/elyvium/projects/ecosystem/")).
    rewrite !startswith_cons. cbn [Ascii.eqb Bool.eqb andb]. discriminate.
Qed.

End PathGuardFacts.

(** C10. The path guard admits strict descendants of the allowed root
    only. Every allowed-root literal ends with a separator while
    [os.path.abspath] strips trailing separators, so: the root directory
    itself is refused, with or without a trailing slash; a canonical path
    of one or more proper names below the root is admitted; a sibling whose
    name merely extends the root's name (the root without its slash,
    followed by text holding no separator) is refused; and whatever path is
    admitted normalizes to the root followed by one or more proper names. *)
Theorem path_guard_strict_descendants :
  Forall (fun root => Py.endswith_char root "/" = true) ALLOWED_ROOTS
  /\ (forall cwd,
        _is_under_allowed_roots cwd "/home/elyvium/projects/ecosystem/" = false
        /\ _is_under_allowed_roots cwd "/home/elyvium/projects/ecosystem" = false)
  /\ (forall cwd names,
        names <> [] ->
        Forall (fun n => OsPath.proper_name n = true) names ->
        _is_under_allowed_roots cwd
          ("/home/elyvium/projects/ecosystem/" +:+ Py.join "/" names) = true)
  /\ (forall cwd suffix,
        OsPath.no_sep suffix ->
        _is_under_allowed_roots cwd
          ("/home/elyvium/projects/ecosystem" +:+ suffix) = false)
  /\ (forall cwd path,
        _is_under_allowed_roots cwd path = true ->
        exists names,
          names <> []
          /\ Forall (fun n => OsPath.proper_name n = true) names
          /\ OsPath.abspath cwd path
             = "/home/elyvium/projects/ecosystem/" +:+ Py.join "/" names).
Proof.
  split; [repeat constructor|].
  split; [intros cwd; split; reflexivity|].
  split; [exact guard_accepts_descendant|].
  split; [exact guard_rejects_name_extension | exact guard_only_descendants].
Qed.

Lemma path_guard_strict_descendants_witness :
  _is_under_allowed_roots "/srv"
    "/home/elyvium/projects/ecosystem/elyvium-ecosystem/src" = true
  /\ _is_under_allowed_roots "/srv"
       "/home/elyvium/projects/ecosystem-evil" = false
  /\ exists names,
       names <> []
       /\ Forall (fun n => OsPath.proper_name n = true) names
       /\ OsPath.abspath "/srv" "/home/elyvium/projects/ecosystem/a/../b/"
          = "/home/elyvium/projects/ecosystem/" +:+ Py.join "/" names.
Proof.
  destruct path_guard_strict_descendants as (_ & _ & Hin & Hext & Honly).
  split; [|split].
  - apply (Hin "/srv" ["elyvium-ecosystem"; "src"]).
    + discriminate.
    + repeat constructor.
  - apply (Hext "/srv" "-evil"). reflexivity.
  - apply (Honly "/srv" "/home/elyvium/projects/ecosystem/a/../b/").
    reflexivity.
Defined.

(** ** The environment registry *)

Section RegistryFacts.

Lemma dict_by_key_snoc (envs : list EnvConfig) (x : EnvConfig) :
  dict_by_key (envs ++ [x]) = <[key x := x]> (dict_by_key envs).
Proof. unfold dict_by_key. now rewrite fold_left_app. Qed.

(** Whatever a lookup returns is an entry of the table with that key. *)
Lemma dict_by_key_lookup_Some (envs : list EnvConfig) (k : string)
    (e : EnvConfig) :
  dict_by_key envs !! k = Some e -> In e envs /\ key e = k.
Proof.
  induction envs as [|x envs IH] using rev_ind; intros H.
  - discriminate.
  - rewrite dict_by_key_snoc in H.
    destruct (decide (key x = k)) as [<-|Hne].
    + rewrite lookup_insert_eq in H. inversion H; subst.
      split; [apply in_or_app; right; now left | reflexivity].
    + rewrite lookup_insert_ne in H by assumption.
      destruct (IH H) as [? ?]. split; [apply in_or_app; now left | assumption].
Qed.

(** With unique keys, looking up the key of an entry returns that entry. *)
Lemma dict_by_key_lookup (envs : list EnvConfig) (e : EnvConfig) :
  NoDup (map key envs) -> In e envs -> dict_by_key envs !! key e = Some e.
Proof.
  induction envs as [|x envs IH] using rev_ind; intros Hnd Hin.
  - destruct Hin.
  - rewrite dict_by_key_snoc. rewrite map_app in Hnd.
    apply NoDup_app in Hnd as (Hnd & Hfresh & _).
    apply in_app_or in Hin as [Hin|[->|[]]].
    + rewrite lookup_insert_ne; [now apply IH|].
      intros Heq. apply (Hfresh (key e)).
      * apply list_elem_of_In, in_map, Hin.
      * rewrite <- Heq. simpl. apply list_elem_of_here.
    + apply lookup_insert_eq.
Qed.

Lemma list_lookup_roundtrip_of (envs : list EnvConfig) (entry : EnvEntry) :
  NoDup (map key envs) ->
  In entry (list_envs_of envs) ->
  exists e,
    dict_by_key envs !! entry_env_key entry = Some e
    /\ name e = entry_name entry
    /\ Py.truthy (front_deploy_script e) = entry_has_frontend entry.
Proof.
  intros Hnd Hin. unfold list_envs_of in Hin.
  apply in_map_iff in Hin as (e & <- & He).
  exists e. simpl. split; [now apply dict_by_key_lookup | split; reflexivity].
Qed.

Lemma ENVS_keys_unique : NoDup (map key ENVS).
Proof.
  simpl. repeat constructor.
  - intros H. apply list_elem_of_singleton in H. discriminate.
  - intros H. inversion H.
Qed.

End RegistryFacts.

(** C9. Round trip between listing and lookup: for every entry of the
    environment listing, the lookup of its key in the registry succeeds
    and yields a configuration with the listed display name and with the
    listed [has_frontend] flag; the listing follows the order of the
    registry table. *)
Theorem list_lookup_roundtrip :
  (forall entry,
      In entry list_envs ->
      exists e,
        ENVS_BY_KEY !! entry_env_key entry = Some e
        /\ name e = entry_name entry
        /\ Py.truthy (front_deploy_script e) = entry_has_frontend entry)
  /\ map entry_env_key list_envs = map key ENVS.
Proof.
  split.
  - intros entry Hin.
    apply list_lookup_roundtrip_of; [exact ENVS_keys_unique | exact Hin].
  - reflexivity.
Qed.

Lemma list_lookup_roundtrip_witness :
  exists e,
    ENVS_BY_KEY !! "DEV" = Some e
    /\ name e = "DEV"
    /\ Py.truthy (front_deploy_script e) = false.
Proof.
  apply (proj1 list_lookup_roundtrip
           {| entry_env_key := "DEV"; entry_name := "DEV";
              entry_default_work_front_dir :=
                "/home/elyvium/projects/ecosystem/elyvium-ecosystem-frontend";
              entry_default_work_back_dir :=
                "/home/elyvium/projects/ecosystem/elyvium-ecosystem";
              entry_default_branch := "sprint/23";
              entry_has_frontend := false |}).
  right. left. reflexivity.
Defined.

(** ** The tokenizer *)

Section ShlexFacts.

Lemma read_tokens_raises (input : string) :
  forall st token e,
    Shlex.read_tokens st token input = Raise e -> exists msg, e = ValueError msg.
Proof.
  induction input as [|c rest IH]; intros st token e H.
  - destruct st; cbn in H; inversion H; eauto.
  - destruct st as [| |q|[q|]]; cbn [Shlex.read_tokens] in H;
      repeat match type of H with
             | context [if ?b then _ else _] => destruct b
             end;
      try (eapply IH; eassumption).
    destruct (Shlex.read_tokens Shlex.InWhitespace "" rest) eqn:E;
      [discriminate|].
    inversion H; subst. eapply IH; eassumption.
Qed.

Lemma shlex_split_raises (text : string) (e : Exception) :
  Shlex.split text = Raise e -> exists msg, e = ValueError msg.
Proof. apply read_tokens_raises. Qed.

End ShlexFacts.

(** ** Projections of the state updates *)

Section StateFacts.
Context {World : Type} {os : OS World}.
Implicit Types (s : State World).

Lemma world_tick s : world (tick s) = world s.
Proof. reflexivity. Qed.
Lemma world_printed x s : world (printed x s) = world s.
Proof. reflexivity. Qed.
Lemma world_checked c s : world (checked c s) = world s.
Proof. reflexivity. Qed.
Lemma world_invoked i w s : world (invoked i w s) = w.
Proof. reflexivity. Qed.
Lemma world_echoed o s : world (echoed o s) = world s.
Proof. unfold echoed. now destruct (negb _). Qed.

Lemma ticks_tick s : ticks (tick s) = S (ticks s).
Proof. reflexivity. Qed.
Lemma ticks_printed x s : ticks (printed x s) = ticks s.
Proof. reflexivity. Qed.
Lemma ticks_checked c s : ticks (checked c s) = ticks s.
Proof. reflexivity. Qed.
Lemma ticks_invoked i w s : ticks (invoked i w s) = ticks s.
Proof. reflexivity. Qed.
Lemma ticks_echoed o s : ticks (echoed o s) = ticks s.
Proof. unfold echoed. now destruct (negb _). Qed.

Lemma invocations_tick s : invocations (tick s) = invocations s.
Proof. reflexivity. Qed.
Lemma invocations_printed x s : invocations (printed x s) = invocations s.
Proof. reflexivity. Qed.
Lemma invocations_checked c s : invocations (checked c s) = invocations s.
Proof. reflexivity. Qed.
Lemma invocations_invoked i w s : invocations (invoked i w s) = invocations s ++ [i].
Proof. reflexivity. Qed.
Lemma invocations_echoed o s : invocations (echoed o s) = invocations s.
Proof. unfold echoed. now destruct (negb _). Qed.

Lemma fs_checks_tick s : fs_checks (tick s) = fs_checks s.
Proof. reflexivity. Qed.
Lemma fs_checks_printed x s : fs_checks (printed x s) = fs_checks s.
Proof. reflexivity. Qed.
Lemma fs_checks_checked c s : fs_checks (checked c s) = fs_checks s ++ [c].
Proof. reflexivity. Qed.
Lemma fs_checks_invoked i w s : fs_checks (invoked i w s) = fs_checks s.
Proof. reflexivity. Qed.
Lemma fs_checks_echoed o s : fs_checks (echoed o s) = fs_checks s.
Proof. unfold echoed. now destruct (negb _). Qed.

Lemma world_after_header req env s : world (after_header req env s) = world s.
Proof. reflexivity. Qed.
Lemma ticks_after_header req env s :
  ticks (after_header req env s) = S (S (ticks s)).
Proof. reflexivity. Qed.
Lemma invocations_after_header req env s :
  invocations (after_header req env s) = invocations s.
Proof. reflexivity. Qed.
Lemma fs_checks_after_header req env s :
  fs_checks (after_header req env s) = fs_checks s.
Proof. reflexivity. Qed.

Lemma ticks_after_footer env s : ticks (after_footer env s) = S (S (ticks s)).
Proof. reflexivity. Qed.
Lemma invocations_after_footer env s :
  invocations (after_footer env s) = invocations s.
Proof. reflexivity. Qed.
Lemma fs_checks_after_footer env s :
  fs_checks (after_footer env s) = fs_checks s.
Proof. reflexivity. Qed.

Lemma app_self_inv {A} (l k : list A) : l = l ++ k -> k = [].
Proof.
  intros H. rewrite <- (app_nil_r l) in H at 1.
  apply app_inv_head in H. congruence.
Qed.

End StateFacts.

Create Rewrite HintDb state.
#[export] Hint Rewrite @world_tick @world_printed @world_checked @world_invoked @world_echoed
  @ticks_tick @ticks_printed @ticks_checked @ticks_invoked @ticks_echoed
  @invocations_tick @invocations_printed @invocations_checked @invocations_invoked @invocations_echoed
  @fs_checks_tick @fs_checks_printed @fs_checks_checked @fs_checks_invoked @fs_checks_echoed : state.
#[export] Hint Rewrite @world_after_header @ticks_after_header
  @invocations_after_header @fs_checks_after_header @ticks_after_footer
  @invocations_after_footer @fs_checks_after_footer : state.

(** ** What one run of each helper does *)

Section RunEquations.
Context {World : Type} {os : OS World}.
Implicit Types (s : State World).

Lemma banner_run (title : string) s :
  _banner title s = (Ok (banner_text (clock (ticks s)) title), tick s).
Proof. reflexivity. Qed.

Lemma assert_git_repo_run (path : string) s :
  _assert_git_repo path s =
  let d := os_path_isdir (world s) path in
  let s1 := checked (IsDir path d) s in
  if d then
    let g := os_path_isdir (world s) (OsPath.join path ".git") in
    let s2 := checked (IsDir (OsPath.join path ".git") g) s1 in
    if g then (Ok tt, s2)
    else (Raise (HTTPException 400
                   ("Not a git repo (.git not found): " +:+ path)), s2)
  else (Raise (HTTPException 400 ("Directory not found: " +:+ path)), s1).
Proof.
  unfold _assert_git_repo, bind, isdir, raise, ret. simpl.
  destruct (os_path_isdir (world s) path); [|reflexivity]. simpl.
  now destruct (os_path_isdir (world s) (OsPath.join path ".git")).
Qed.

Lemma assert_file_exists_run (path : string) s :
  _assert_file_exists path s =
  let f := os_path_isfile (world s) path in
  let s1 := checked (IsFile path f) s in
  if f then (Ok tt, s1)
  else (Raise (HTTPException 400 ("File not found: " +:+ path)), s1).
Proof.
  unfold _assert_file_exists, bind, isfile, raise, ret. simpl.
  now destruct (os_path_isfile (world s) path).
Qed.

Lemma run_cmd_capture_run (cmd : list string) (cwd : string) s :
  _run_cmd_capture cmd cwd s =
  let '(r, w) := subprocess_run cmd cwd (world s) in
  let s1 := invoked (invocation_of cmd cwd r) w
              (printed (_cmd_block cmd cwd +:+ Py.NL) s) in
  match r with
  | Spawned p =>
      if Z.eqb (returncode p) 0 then (Ok (captured p), echoed (captured p) s1)
      else (Raise (HTTPException 500
                     (failure_detail (clock (ticks s)) cmd cwd p)),
            tick (echoed (captured p) s1))
  | SpawnError msg => (Raise (OSError msg), s1)
  | NulByte => (Raise (ValueError "embedded null byte"), s1)
  | EmptyArgv => (Raise (IndexError "list index out of range"), s1)
  | DecodeError _ msg => (Raise (UnicodeDecodeError msg), s1)
  end.
Proof.
  unfold _run_cmd_capture, bind, print, run, echoed, captured. simpl.
  destruct (subprocess_run cmd cwd (world s)) as [[p|msg| | |status msg] w];
    [|reflexivity..].
  destruct (negb (String.eqb (Py.strip _) "")); destruct (Z.eqb (returncode p) 0);
    reflexivity.
Qed.

End RunEquations.

(** ** Case analysis of a run *)

Ltac run_equations H :=
  repeat first
    [ rewrite banner_run in H
    | rewrite assert_git_repo_run in H
    | rewrite assert_file_exists_run in H
    | rewrite run_cmd_capture_run in H
    | progress cbv beta iota zeta in H
    | progress unfold lift, ret, raise in H ].

(* destruct the next scrutinee in hypothesis H *)
Ltac split_run H :=
  match type of H with
  | context [match subprocess_run ?c ?d ?w0 with _ => _ end] =>
      let E := fresh "Hrun" in
      destruct (subprocess_run c d w0) as [[?p|?msg| | |?status ?msg] ?w] eqn:E
  | context [if os_path_isdir ?w ?p then _ else _] =>
      let E := fresh "Hdir" in destruct (os_path_isdir w p) eqn:E
  | context [if os_path_isfile ?w ?p then _ else _] =>
      let E := fresh "Hfile" in destruct (os_path_isfile w p) eqn:E
  | context [if Z.eqb (returncode ?p) 0 then _ else _] =>
      let E := fresh "Hrc" in destruct (Z.eqb (returncode p) 0) eqn:E
  | context [match Shlex.split ?x with _ => _ end] =>
      let E := fresh "Hlex" in destruct (Shlex.split x) as [?toks|?exc] eqn:E
  | context [if negb (Py.truthy ?x) then _ else _] =>
      let E := fresh "Htruthy" in destruct (Py.truthy x) eqn:E; cbn [negb] in H
  end.

Ltac stage_cases H :=
  repeat (run_equations H; autorewrite with state in H; try split_run H);
  inversion H; subst; clear H.

Ltac new_part H :=
  match type of H with
  | ?l ++ _ = ?l ++ _ => apply app_inv_head in H
  | ?l = ?l ++ _ => apply app_self_inv in H
  end.

Ltac extends := first [reflexivity | symmetry; apply app_nil_r].

Ltac zero_facts :=
  repeat match goal with
         | H : Forall _ (_ :: _) |- _ => inversion H; subst; clear H
         | H : Forall _ [] |- _ => clear H
         | H : exited_zero (invocation_of _ _ _) = true |- _ =>
             unfold exited_zero, invocation_of in H; cbn in H
         | H : fs_answer _ = true |- _ => cbn in H
         end.

(** ** The stages and the request *)

Section StageFacts.
Context {World : Type} {os : OS World}.
Implicit Types (s : State World).

Lemma deploy_decompose (req : DeployRequest) (env : EnvConfig) s :
  ENVS_BY_KEY !! env_key req = Some env ->
  _is_under_allowed_roots (os_getcwd (world s)) (work_front_dir req) = true ->
  _is_under_allowed_roots (os_getcwd (world s)) (work_back_dir req) = true ->
  deploy req s =
  match _deploy_frontend env (work_front_dir req) (branch req)
          (after_header req env s) with
  | (Raise e, s2) => (Raise e, s2)
  | (Ok front, s2) =>
      match _deploy_backend env (work_back_dir req) (branch req) s2 with
      | (Raise e, s3) => (Raise e, s3)
      | (Ok back, s3) =>
          (Ok {| ok := true; env := name env;
                 output :=
                   ((started_text
                       (banner_text (clock (S (ticks s)))
                          ("DEPLOY STARTED | " +:+ name env)) req
                     +:+ front) +:+ back)
                   +:+ banner_text (clock (ticks s3))
                         ("DEPLOY FINISHED ✅ | " +:+ name env) |},
           after_footer env s3)
      end
  end.
Proof.
  intros Henv Hf Hb. unfold deploy. rewrite Henv.
  unfold check_paths, bind at 1 2, getcwd. rewrite Hf. cbn [negb].
  unfold bind at 1 2, getcwd. rewrite Hb. cbn [negb].
  unfold ret at 1. cbv iota beta.
  unfold bind at 1. rewrite banner_run.
  unfold bind at 1, print at 1. unfold bind at 1, print at 1.
  unfold bind at 1, print at 1. unfold bind at 1, print at 1.
  unfold bind at 1. rewrite banner_run. cbv beta iota zeta.
  unfold bind at 1.
  change (tick (printed _ (printed _ (printed _ (printed _ (tick s))))))
    with (after_header req env s).
  destruct (_deploy_frontend env (work_front_dir req) (branch req)
              (after_header req env s)) as [[front|e] s2]; [|reflexivity].
  unfold bind at 1.
  destruct (_deploy_backend env (work_back_dir req) (branch req) s2)
    as [[back|e] s3]; [|reflexivity].
  unfold bind at 1. rewrite banner_run.
  unfold bind at 1. rewrite banner_run.
  reflexivity.
Qed.

Lemma frontend_skipped (env : EnvConfig) (front br : string) s :
  Py.truthy (front_deploy_script env) = false ->
  _deploy_frontend env front br s
  = (Ok (banner_text (clock (ticks s)) ("FRONTEND DEPLOY | " +:+ name env)
         +:+ skip_marker),
     tick s).
Proof.
  intros H. unfold _deploy_frontend, bind. rewrite banner_run, H. reflexivity.
Qed.


Lemma frontend_trace (env : EnvConfig) (front br : string) s r s' :
  _deploy_frontend env front br s = (r, s') ->
  exists cs ivs,
    fs_checks s' = fs_checks s ++ cs
    /\ invocations s' = invocations s ++ ivs
    /\ map call ivs `prefix_of` [(frontend_cmd env front br, front)]
    /\ Forall (fun i => exited_zero i = true) (removelast ivs)
    /\ (forall log, r = Ok log -> Forall (fun i => exited_zero i = true) ivs)
    /\ (forall d, r = Raise (HTTPException 400 d) -> ivs = [])
    /\ (forall d, r = Raise (HTTPException 500 d) ->
        exists ivs' i p n,
          ivs = ivs' ++ [i] /\ inv_result i = Spawned p /\ returncode p <> 0%Z
          /\ d = failure_detail (clock n) (inv_cmd i) (inv_cwd i) p).
Proof.
  unfold _deploy_frontend, bind. intros H.
  stage_cases H; autorewrite with state; rewrite <- ?app_assoc; cbn [app].
  all: do 2 eexists; split; [extends|]; split; [extends|].
  all: split; [unfold frontend_cmd; eexists; reflexivity|].
  all: split; [cbn [removelast]; constructor|].
  all: split; [intros log Hr; try discriminate; repeat constructor;
               unfold exited_zero; cbn; assumption|].
  all: split; [intros d Hr; try discriminate; reflexivity|].
  all: intros d Hr; try discriminate.
  inversion Hr; subst. exists []. do 3 eexists. cbn [app].
  repeat split. now apply Z.eqb_neq.
Qed.

Lemma backend_trace (env : EnvConfig) (back br : string) s r s' :
  _deploy_backend env back br s = (r, s') ->
  exists cs ivs,
    fs_checks s' = fs_checks s ++ cs
    /\ invocations s' = invocations s ++ ivs
    /\ map call ivs `prefix_of` backend_plan env back br
    /\ Forall (fun i => exited_zero i = true) (removelast ivs)
    /\ (forall log, r = Ok log -> Forall (fun i => exited_zero i = true) ivs)
    /\ (forall d, r = Raise (HTTPException 400 d) -> ivs = [])
    /\ (forall d, r = Raise (HTTPException 500 d) ->
        exists ivs' i p n,
          ivs = ivs' ++ [i] /\ inv_result i = Spawned p /\ returncode p <> 0%Z
          /\ d = failure_detail (clock n) (inv_cmd i) (inv_cwd i) p).
Proof.
  unfold _deploy_backend, bind. intros H.
  stage_cases H; autorewrite with state; rewrite <- ?app_assoc; cbn [app].
  all: do 2 eexists; split; [extends|]; split; [extends|].
  all: split; [unfold backend_plan; try rewrite Hlex; eexists; reflexivity|].
  all: split; [cbn [removelast]; repeat constructor;
               unfold exited_zero; cbn; assumption|].
  all: split; [intros log Hr; try discriminate; repeat constructor;
               unfold exited_zero; cbn; assumption|].
  all: try (apply shlex_split_raises in Hlex as [msg ->]).
  all: split; [intros d Hr; try discriminate; reflexivity|].
  all: intros d Hr; try discriminate.
  all: inversion Hr; subst.
  - exists [invocation_of ["git"; "fetch"; "origin"] back (Spawned p);
            invocation_of ["git"; "pull"; "origin"; br] back (Spawned p0)].
    do 3 eexists. cbn [app]. repeat split. now apply Z.eqb_neq.
  - exists [invocation_of ["git"; "fetch"; "origin"] back (Spawned p)].
    do 3 eexists. cbn [app]. repeat split. now apply Z.eqb_neq.
  - exists []. do 3 eexists. cbn [app]. repeat split. now apply Z.eqb_neq.
Qed.

Lemma frontend_success (env : EnvConfig) (front br : string) s r s' cs ivs :
  _deploy_frontend env front br s = (r, s') ->
  fs_checks s' = fs_checks s ++ cs ->
  invocations s' = invocations s ++ ivs ->
  Forall (fun c => fs_answer c = true) cs ->
  Forall (fun i => exited_zero i = true) ivs ->
  ticks s' = S (ticks s)
  /\ ((Py.truthy (front_deploy_script env) = false
       /\ ivs = []
       /\ r = Ok (banner_text (clock (ticks s))
                    ("FRONTEND DEPLOY | " +:+ name env) +:+ skip_marker))
      \/ (Py.truthy (front_deploy_script env) = true
          /\ exists p,
               ivs = [invocation_of (frontend_cmd env front br) front
                        (Spawned p)]
               /\ r = Ok (frontend_transcript
                            (banner_text (clock (ticks s))
                               ("FRONTEND DEPLOY | " +:+ name env))
                            front
                            (OsPath.join front
                               (Py.or_empty (front_deploy_script env)))
                            br (captured p)))).
Proof.
  unfold _deploy_frontend, bind. intros H Hcs Hivs Hchecks Hzero.
  stage_cases H; autorewrite with state in *; rewrite <- ?app_assoc in *;
    cbn [app] in *.
  all: new_part Hcs; new_part Hivs; subst cs ivs.
  all: zero_facts; try congruence.
  - split; [reflexivity|]. right. split; [reflexivity|].
    eexists. split; reflexivity.
  - split; [reflexivity|]. left. repeat split.
Qed.

Lemma backend_success (env : EnvConfig) (back br : string) s r s' cs ivs :
  _deploy_backend env back br s = (r, s') ->
  fs_checks s' = fs_checks s ++ cs ->
  invocations s' = invocations s ++ ivs ->
  Forall (fun c => fs_answer c = true) cs ->
  Forall (fun i => exited_zero i = true) ivs ->
  (exists toks, Shlex.split (backend_compose_command env) = Ok toks) ->
  exists toks p1 p2 p3,
    Shlex.split (backend_compose_command env) = Ok toks
    /\ ivs = [invocation_of ["git"; "fetch"; "origin"] back (Spawned p1);
              invocation_of ["git"; "pull"; "origin"; br] back (Spawned p2);
              invocation_of toks back (Spawned p3)]
    /\ ticks s' = S (ticks s)
    /\ r = Ok (backend_transcript
                 (banner_text (clock (ticks s))
                    ("BACKEND DEPLOY | " +:+ name env))
                 env back br toks (captured p1) (captured p2) (captured p3)).
Proof.
  unfold _deploy_backend, bind. intros H Hcs Hivs Hchecks Hzero [toks0 Htoks].
  stage_cases H; autorewrite with state in *; rewrite <- ?app_assoc in *;
    cbn [app] in *.
  all: new_part Hcs; new_part Hivs; subst cs ivs.
  all: zero_facts; try congruence.
  do 4 eexists. repeat split.
Qed.
End StageFacts.

(** ** Requests *)

Section DeployFacts.
Context {World : Type} {os : OS World}.
Implicit Types (s : State World).

Lemma deploy_unknown_env (req : DeployRequest) s :
  ENVS_BY_KEY !! env_key req = None ->
  deploy req s
  = (Raise (HTTPException 400 "Invalid env_key (not in allowlist)."), s).
Proof. intros H. unfold deploy. now rewrite H. Qed.

Lemma deploy_forbidden_path (req : DeployRequest) (env : EnvConfig) s :
  ENVS_BY_KEY !! env_key req = Some env ->
  (_is_under_allowed_roots (os_getcwd (world s)) (work_front_dir req)
   && _is_under_allowed_roots (os_getcwd (world s)) (work_back_dir req))%bool
  = false ->
  deploy req s
  = (Raise (HTTPException 400
              (path_error_detail
                 (if _is_under_allowed_roots (os_getcwd (world s))
                       (work_front_dir req)
                  then work_back_dir req else work_front_dir req))),
     s).
Proof.
  intros Henv H. unfold deploy. rewrite Henv.
  unfold check_paths, bind at 1 2, getcwd.
  destruct (_is_under_allowed_roots _ (work_front_dir req)); cbn [negb];
    [|reflexivity].
  unfold bind at 1 2, getcwd. cbn [andb] in H. rewrite H. reflexivity.
Qed.

(** Every registered environment has a compose command that tokenizes. *)
Lemma registered_compose_tokenizes (k : string) (env : EnvConfig) :
  ENVS_BY_KEY !! k = Some env ->
  exists toks, Shlex.split (backend_compose_command env) = Ok toks.
Proof.
  intros H. apply dict_by_key_lookup_Some in H as [Hin _].
  unfold ENVS in Hin. cbn [In] in Hin.
  destruct Hin as [<-|[<-|[]]]; eexists; reflexivity.
Qed.

Lemma removelast_zero (front back : list Invocation) :
  Forall (fun i => exited_zero i = true) front ->
  Forall (fun i => exited_zero i = true) (removelast back) ->
  Forall (fun i => exited_zero i = true) (removelast (front ++ back)).
Proof.
  intros Hf Hb. destruct back as [|b back].
  - rewrite app_nil_r. clear Hb.
    induction front as [|a [|a' front] IH]; cbn [removelast]; [constructor..|].
    inversion Hf; subst. constructor; [assumption | now apply IH].
  - rewrite removelast_app by discriminate. apply Forall_app. now split.
Qed.

(** The trace of a whole request. *)
Lemma deploy_trace (req : DeployRequest) s r s' :
  deploy req s = (r, s') ->
  exists cs ivs,
    fs_checks s' = fs_checks s ++ cs
    /\ invocations s' = invocations s ++ ivs
    /\ Forall (fun i => exited_zero i = true) (removelast ivs)
    /\ (forall resp, r = Ok resp -> Forall (fun i => exited_zero i = true) ivs)
    /\ (forall d, r = Raise (HTTPException 500 d) ->
        exists ivs' i p n,
          ivs = ivs' ++ [i] /\ inv_result i = Spawned p /\ returncode p <> 0%Z
          /\ d = failure_detail (clock n) (inv_cmd i) (inv_cwd i) p).
Proof.
  intros H.
  destruct (ENVS_BY_KEY !! env_key req) as [env|] eqn:Henv.
  2:{ rewrite deploy_unknown_env in H by assumption. inversion H; subst.
      exists [], []. rewrite !app_nil_r. repeat split; try constructor;
        intros; discriminate. }
  destruct (_is_under_allowed_roots (os_getcwd (world s)) (work_front_dir req)
            && _is_under_allowed_roots (os_getcwd (world s))
                 (work_back_dir req))%bool eqn:Hok.
  2:{ rewrite (deploy_forbidden_path req env) in H by assumption.
      inversion H; subst.
      exists [], []. rewrite !app_nil_r. repeat split; try constructor;
        intros; discriminate. }
  apply andb_prop in Hok as [Hf Hb].
  rewrite (deploy_decompose req env) in H by assumption.
  destruct (_deploy_frontend env (work_front_dir req) (branch req)
              (after_header req env s)) as [[front|e] s2] eqn:Hfront.
  - apply frontend_trace in Hfront
      as (cs1 & ivs1 & Hcs1 & Hivs1 & _ & Hlast1 & Hok1 & _ & _).
    specialize (Hok1 _ eq_refl).
    autorewrite with state in Hcs1, Hivs1.
    destruct (_deploy_backend env (work_back_dir req) (branch req) s2)
      as [[back|e] s3] eqn:Hback.
    + apply backend_trace in Hback
        as (cs2 & ivs2 & Hcs2 & Hivs2 & _ & Hlast2 & Hok2 & _ & _).
      specialize (Hok2 _ eq_refl).
      inversion H; subst. autorewrite with state.
      exists (cs1 ++ cs2), (ivs1 ++ ivs2).
      rewrite Hcs2, Hcs1, Hivs2, Hivs1, <- !app_assoc.
      repeat split; try (intros; discriminate).
      * now apply removelast_zero.
      * intros _ _. apply Forall_app. now split.
    + apply backend_trace in Hback
        as (cs2 & ivs2 & Hcs2 & Hivs2 & _ & Hlast2 & _ & _ & H500).
      inversion H; subst.
      exists (cs1 ++ cs2), (ivs1 ++ ivs2).
      rewrite Hcs2, Hcs1, Hivs2, Hivs1, <- !app_assoc.
      repeat split; try (intros; discriminate).
      * now apply removelast_zero.
      * intros d Hd. inversion Hd; subst.
        destruct (H500 d eq_refl) as (ivs' & i & p & n & -> & ?).
        exists (ivs1 ++ ivs'), i, p, n. now rewrite <- app_assoc.
  - apply frontend_trace in Hfront
      as (cs1 & ivs1 & Hcs1 & Hivs1 & _ & Hlast1 & _ & _ & H500).
    autorewrite with state in Hcs1, Hivs1.
    inversion H; subst.
    exists cs1, ivs1. repeat split; try assumption; try (intros; discriminate).
    intros d Hd. inversion Hd; subst. now apply H500.
Qed.


Lemma backend_first_check (env : EnvConfig) (back br : string) s :
  exists rest,
    fs_checks (snd (_deploy_backend env back br s))
    = fs_checks s ++ IsDir back (os_path_isdir (world s) back) :: rest.
Proof.
  destruct (_deploy_backend env back br s) as [r s'] eqn:H.
  unfold _deploy_backend, bind in H.
  stage_cases H; cbn [snd]; autorewrite with state; rewrite <- ?app_assoc;
    cbn [app]; eexists; reflexivity.
Qed.

Lemma frontend_preconditions_hold (env : EnvConfig) (front br script : string) s :
  front_deploy_script env = Some script -> script <> "" ->
  os_path_isdir (world s) front = true ->
  os_path_isdir (world s) (OsPath.join front ".git") = true ->
  os_path_isfile (world s) (OsPath.join front script) = true ->
  invocations (snd (_deploy_frontend env front br s))
  = invocations s
    ++ [invocation_of ["bash"; OsPath.join front script; br] front
          (fst (subprocess_run ["bash"; OsPath.join front script; br] front
                  (world s)))].
Proof.
  intros Hs Hne Hd Hg Hf.
  destruct (_deploy_frontend env front br s) as [r s'] eqn:H.
  unfold _deploy_frontend, bind in H. rewrite Hs in H.
  assert (Ht : Py.truthy (Some script) = true) by (destruct script; [congruence | reflexivity]).
  rewrite Ht in H. cbn [negb Py.or_empty] in H.
  stage_cases H; cbn [snd]; autorewrite with state; try congruence;
    rewrite ?Hrun; reflexivity.
Qed.

Lemma frontend_precondition_fails (env : EnvConfig) (front br : string) s :
  Py.truthy (front_deploy_script env) = true ->
  let script_path :=
    OsPath.join front (Py.or_empty (front_deploy_script env)) in
  (os_path_isdir (world s) front = false ->
   exists s',
     _deploy_frontend env front br s
     = (Raise (HTTPException 400 ("Directory not found: " +:+ front)), s')
     /\ invocations s' = invocations s)
  /\ (os_path_isdir (world s) front = true ->
      os_path_isdir (world s) (OsPath.join front ".git") = false ->
      exists s',
        _deploy_frontend env front br s
        = (Raise (HTTPException 400
                    ("Not a git repo (.git not found): " +:+ front)), s')
        /\ invocations s' = invocations s)
  /\ (os_path_isdir (world s) front = true ->
      os_path_isdir (world s) (OsPath.join front ".git") = true ->
      os_path_isfile (world s) script_path = false ->
      exists s',
        _deploy_frontend env front br s
        = (Raise (HTTPException 400 ("File not found: " +:+ script_path)), s')
        /\ invocations s' = invocations s).
Proof.
  intros Ht script_path. subst script_path.
  unfold _deploy_frontend, bind. rewrite banner_run, Ht. cbn [negb].
  rewrite assert_git_repo_run; autorewrite with state. cbv zeta.
  repeat split.
  - intros ->. eexists. split; reflexivity.
  - intros -> ->. eexists. split; reflexivity.
  - intros -> -> Hf. rewrite assert_file_exists_run; autorewrite with state.
    cbv zeta. rewrite Hf. eexists. split; reflexivity.
Qed.

Lemma backend_precondition_fails (env : EnvConfig) (back br : string) s :
  (os_path_isdir (world s) back = false ->
   exists s',
     _deploy_backend env back br s
     = (Raise (HTTPException 400 ("Directory not found: " +:+ back)), s')
     /\ invocations s' = invocations s)
  /\ (os_path_isdir (world s) back = true ->
      os_path_isdir (world s) (OsPath.join back ".git") = false ->
      exists s',
        _deploy_backend env back br s
        = (Raise (HTTPException 400
                    ("Not a git repo (.git not found): " +:+ back)), s')
        /\ invocations s' = invocations s).
Proof.
  unfold _deploy_backend, bind. rewrite banner_run.
  rewrite assert_git_repo_run; autorewrite with state. cbv zeta.
  split.
  - intros ->. eexists. split; reflexivity.
  - intros -> ->. eexists. split; reflexivity.
Qed.

Lemma backend_three_calls (env : EnvConfig) (back br : string) s
    (p1 p2 : CompletedProcess) (w1 w2 : World) (toks : list string) :
  os_path_isdir (world s) back = true ->
  os_path_isdir (world s) (OsPath.join back ".git") = true ->
  subprocess_run ["git"; "fetch"; "origin"] back (world s) = (Spawned p1, w1) ->
  returncode p1 = 0%Z ->
  subprocess_run ["git"; "pull"; "origin"; br] back w1 = (Spawned p2, w2) ->
  returncode p2 = 0%Z ->
  Shlex.split (backend_compose_command env) = Ok toks ->
  invocations (snd (_deploy_backend env back br s))
  = invocations s
    ++ [invocation_of ["git"; "fetch"; "origin"] back (Spawned p1);
        invocation_of ["git"; "pull"; "origin"; br] back (Spawned p2);
        invocation_of toks back (fst (subprocess_run toks back w2))].
Proof.
  intros Hd Hg H1 Hz1 H2 Hz2 Hlex.
  destruct (_deploy_backend env back br s) as [r s'] eqn:H.
  unfold _deploy_backend, bind in H.
  run_equations H; autorewrite with state in H.
  rewrite Hd, Hg in H. run_equations H; autorewrite with state in H.
  rewrite H1 in H. cbv beta iota zeta in H. rewrite Hz1 in H.
  cbn [Z.eqb] in H. run_equations H; autorewrite with state in H.
  rewrite H2 in H. cbv beta iota zeta in H. rewrite Hz2 in H.
  cbn [Z.eqb] in H. rewrite Hlex in H.
  stage_cases H; cbn [snd]; autorewrite with state; rewrite <- ?app_assoc;
    reflexivity.
Qed.

End DeployFacts.

(** ** The details of the errors of a stage *)

Section ErrorDetails.
Context {World : Type} {os : OS World}.
Implicit Types (s : State World).

Lemma frontend_error_detail (env : EnvConfig) (front br : string) s s'
    (code : Z) (d : string) :
  _deploy_frontend env front br s = (Raise (HTTPException code d), s') ->
  code = 500%Z
  \/ (code = 400%Z
      /\ In d [ "Directory not found: " +:+ front;
                "Not a git repo (.git not found): " +:+ front;
                "File not found: "
                +:+ OsPath.join front
                      (Py.or_empty (front_deploy_script env)) ]).
Proof.
  unfold _deploy_frontend, bind. intros H.
  stage_cases H; cbn [In]; auto 6.
Qed.

Lemma backend_error_detail (env : EnvConfig) (back br : string) s s'
    (code : Z) (d : string) :
  _deploy_backend env back br s = (Raise (HTTPException code d), s') ->
  code = 500%Z
  \/ (code = 400%Z
      /\ In d [ "Directory not found: " +:+ back;
                "Not a git repo (.git not found): " +:+ back ]).
Proof.
  unfold _deploy_backend, bind. intros H.
  repeat (run_equations H; autorewrite with state in H; try split_run H);
    try (apply shlex_split_raises in Hlex as [msg ->]);
    inversion H; subst; clear H; cbn [In]; auto 6.
Qed.

End ErrorDetails.

(** ** The request-level statements *)

(** C1 (amended). A request whose environment key is registered and whose
    frontend or backend directory does not normalize to a path under an
    allowed root fails with HTTP 400 and the detail [Path not allowed: p],
    [p] being the first offending directory as the request gives it,
    followed by the list of allowed roots; a request whose key is not
    registered fails with the invalid-key error instead. In both cases the
    state is left as it was: no subprocess runs, no filesystem check is
    made, nothing is printed. *)
Theorem deploy_rejects_forbidden_path
    {World : Type} {os : OS World} (req : DeployRequest) (s : State World) :
  _is_under_allowed_roots (os_getcwd (world s)) (work_front_dir req) = false
  \/ _is_under_allowed_roots (os_getcwd (world s)) (work_back_dir req) = false ->
  (forall env,
      ENVS_BY_KEY !! env_key req = Some env ->
      deploy req s
      = (Raise (HTTPException 400
                  (path_error_detail
                     (if _is_under_allowed_roots (os_getcwd (world s))
                           (work_front_dir req)
                      then work_back_dir req else work_front_dir req))),
         s))
  /\ (ENVS_BY_KEY !! env_key req = None ->
      deploy req s
      = (Raise (HTTPException 400 "Invalid env_key (not in allowlist)."), s))
  /\ invocations (snd (deploy req s)) = invocations s
  /\ fs_checks (snd (deploy req s)) = fs_checks s.
Proof.
  intros Hbad.
  assert (Hand :
    (_is_under_allowed_roots (os_getcwd (world s)) (work_front_dir req)
     && _is_under_allowed_roots (os_getcwd (world s)) (work_back_dir req))%bool
    = false).
  { destruct Hbad as [-> | ->]; [reflexivity | apply andb_false_r]. }
  split; [|split].
  - intros env Henv. now apply (deploy_forbidden_path req env).
  - apply deploy_unknown_env.
  - destruct (ENVS_BY_KEY !! env_key req) as [env|] eqn:Henv.
    + rewrite (deploy_forbidden_path req env) by assumption. now split.
    + rewrite deploy_unknown_env by assumption. now split.
Qed.

Lemma deploy_rejects_forbidden_path_witness :
  Scripted.deploy
    (Scripted.request "TEST" "/etc" Scripted.back_dir "main") Scripted.all_fine
  = (Raise (HTTPException 400 (path_error_detail "/etc")),
     Scripted.start Scripted.all_fine).
Proof.
  apply (proj1 (deploy_rejects_forbidden_path
                  (Scripted.request "TEST" "/etc" Scripted.back_dir "main")
                  (Scripted.start Scripted.all_fine)
                  (or_introl eq_refl))
           Scripted.test_env eq_refl).
Defined.

(** C1 as stated fails: with an unregistered key and a directory outside
    the allowed roots, the request is refused for its key; the error names
    no path. *)
Lemma forbidden_path_unknown_env_counterexample :
  let req := Scripted.request "PROD" "/etc" Scripted.back_dir "main" in
  _is_under_allowed_roots (os_getcwd Scripted.all_fine) (work_front_dir req)
  = false
  /\ fst (Scripted.deploy req Scripted.all_fine)
     = Raise (HTTPException 400 "Invalid env_key (not in allowlist).")
  /\ (forall p,
        fst (Scripted.deploy req Scripted.all_fine)
        <> Raise (HTTPException 400 (path_error_detail p)))
  /\ Py.contains "Invalid env_key (not in allowlist)." "/etc" = false.
Proof.
  cbv zeta. split; [reflexivity|]. split; [reflexivity|]. split; [|reflexivity].
  intros p H.
  change (fst (Scripted.deploy
                 (Scripted.request "PROD" "/etc" Scripted.back_dir "main")
                 Scripted.all_fine))
    with (@Raise DeployResponse
            (HTTPException 400 "Invalid env_key (not in allowlist).")) in H.
  unfold path_error_detail in H. discriminate H.
Qed.

(** C2 (amended). The detail of the error a failed request returns holds
    no transcript of the earlier steps. When a command exits non-zero
    (status 500) the detail is the failure banner, the block of the failing
    command, its exit code and the output captured from that command, and
    nothing else; the failing command is the last invocation of the
    request. When a check fails (status 400) the detail is the one message
    of that check: the invalid-key message, the path error of one of the
    two directories, or the precondition message of one of the two
    stages. *)
Theorem deploy_failure_detail
    {World : Type} {os : OS World} (req : DeployRequest)
    (s s' : State World) (code : Z) (d : string) :
  deploy req s = (Raise (HTTPException code d), s') ->
  (code = 500%Z
   /\ exists earlier i p n,
        invocations s' = invocations s ++ earlier ++ [i]
        /\ inv_result i = Spawned p
        /\ returncode p <> 0%Z
        /\ d = banner_text (clock n) "COMMAND FAILED ❌"
               +:+ _cmd_block (inv_cmd i) (inv_cwd i)
               +:+ "Exit Code: " +:+ Py.str_of_int (returncode p)
               +:+ Py.NL +:+ Py.NL
               +:+ (Py.or_empty (stdout p) +:+ Py.or_empty (stderr p)))
  \/ (code = 400%Z
      /\ (d = "Invalid env_key (not in allowlist)."
          \/ exists env,
               ENVS_BY_KEY !! env_key req = Some env
               /\ In d [ path_error_detail (work_front_dir req);
                         path_error_detail (work_back_dir req);
                         "Directory not found: " +:+ work_front_dir req;
                         "Not a git repo (.git not found): "
                         +:+ work_front_dir req;
                         "File not found: "
                         +:+ OsPath.join (work_front_dir req)
                               (Py.or_empty (front_deploy_script env));
                         "Directory not found: " +:+ work_back_dir req;
                         "Not a git repo (.git not found): "
                         +:+ work_back_dir req ])).
Proof.
  intros H.
  assert (H500 : code = 500%Z ->
            exists earlier i p n,
              invocations s' = invocations s ++ earlier ++ [i]
              /\ inv_result i = Spawned p
              /\ returncode p <> 0%Z
              /\ d = failure_detail (clock n) (inv_cmd i) (inv_cwd i) p).
  { intros ->.
    apply deploy_trace in H as (cs & ivs & _ & Hivs & _ & _ & H500).
    destruct (H500 d eq_refl) as (earlier & i & p & n & -> & Hi & Hrc & ->).
    exists earlier, i, p, n. repeat split; assumption. }
  destruct (ENVS_BY_KEY !! env_key req) as [env|] eqn:Henv.
  2:{ rewrite deploy_unknown_env in H by assumption. inversion H; subst.
      right. split; [reflexivity | now left]. }
  destruct (_is_under_allowed_roots (os_getcwd (world s)) (work_front_dir req)
            && _is_under_allowed_roots (os_getcwd (world s))
                 (work_back_dir req))%bool eqn:Hok.
  2:{ rewrite (deploy_forbidden_path req env) in H by assumption.
      inversion H; subst. right. split; [reflexivity|]. right.
      exists env. split; [reflexivity|].
      destruct (_is_under_allowed_roots _ (work_front_dir req));
        cbn [In]; auto. }
  apply andb_prop in Hok as [Hf Hb].
  rewrite (deploy_decompose req env) in H by assumption.
  destruct (_deploy_frontend env (work_front_dir req) (branch req)
              (after_header req env s)) as [[front|e] s2] eqn:Hfront.
  - destruct (_deploy_backend env (work_back_dir req) (branch req) s2)
      as [[back|e] s3] eqn:Hback; [discriminate|].
    inversion H; subst e s3.
    apply backend_error_detail in Hback as [->|[-> Hd]]; [left; auto|].
    right. split; [reflexivity|]. right. exists env. split; [reflexivity|].
    cbn [In] in *. intuition.
  - inversion H; subst e s2.
    apply frontend_error_detail in Hfront as [->|[-> Hd]]; [left; auto|].
    right. split; [reflexivity|]. right. exists env. split; [reflexivity|].
    cbn [In] in *. intuition.
Qed.

Lemma deploy_failure_detail_witness :
  exists d s',
    Scripted.deploy
      (Scripted.request "DEV" Scripted.front_dir Scripted.back_dir "main")
      Scripted.pull_conflict
    = (Raise (HTTPException 500 d), s')
    /\ exists earlier i p n,
         invocations s' = [] ++ earlier ++ [i]
         /\ inv_result i = Spawned p
         /\ returncode p <> 0%Z
         /\ d = banner_text (@clock Scripted.T Scripted.os n) "COMMAND FAILED ❌"
                +:+ _cmd_block (inv_cmd i) (inv_cwd i)
                +:+ "Exit Code: " +:+ Py.str_of_int (returncode p)
                +:+ Py.NL +:+ Py.NL
                +:+ (Py.or_empty (stdout p) +:+ Py.or_empty (stderr p)).
Proof.
  do 2 eexists. split; [vm_compute; reflexivity|].
  destruct (@deploy_failure_detail Scripted.T Scripted.os
              (Scripted.request "DEV" Scripted.front_dir Scripted.back_dir
                 "main")
              (Scripted.start Scripted.pull_conflict) _ _ _
              ltac:(vm_compute; reflexivity))
    as [[_ H]|[H _]]; [exact H | discriminate H].
Defined.

(** C2 as stated fails: the fetch ran first and printed [fetched], the pull
    then failed; the detail returned holds the pull's block and output but
    neither the started banner, nor the fetch's block, nor its output. *)
Lemma failure_detail_transcript_counterexample :
  exists d s',
    Scripted.deploy
      (Scripted.request "DEV" Scripted.front_dir Scripted.back_dir "main")
      Scripted.pull_conflict
    = (Raise (HTTPException 500 d), s')
    /\ map (fun i => (inv_cmd i, exited_zero i)) (invocations s')
       = [(Scripted.git_fetch, true); (Scripted.git_pull "main", false)]
    /\ Py.contains d "git pull origin main" = true
    /\ Py.contains d "conflict" = true
    /\ Py.contains d "DEPLOY STARTED" = false
    /\ Py.contains d "BACKEND DEPLOY" = false
    /\ Py.contains d "git fetch origin" = false
    /\ Py.contains d "fetched" = false.
Proof.
  do 2 eexists. split; [vm_compute; reflexivity|].
  repeat split; vm_compute; reflexivity.
Qed.




(** C4 (amended). The command runner. When [subprocess.run] returns a
    completed process with a non-zero return code, the runner raises an
    [HTTPException] of status 500 that has one text and no other field:
    the failure banner, the command block with the working directory on
    its [CWD] line and the argv joined by single spaces on its [CMD] line,
    the exit code, an empty line, and then exactly the captured stdout
    followed by the captured stderr. When the return code is zero the
    runner returns that same concatenation and raises nothing. When
    [subprocess.run] raises instead of returning (the command could not be
    started, an argument held a NUL character, or the process ran, with
    whatever exit status, and wrote what is not valid text), the runner
    raises that exception unchanged. In each case the call is recorded
    once. Within a request every invocation but the last has returned with
    code zero, so nothing is run after a command that fails, and a request
    that returns has seen only zero return codes. *)
Theorem command_runner_contract {World : Type} {os : OS World} :
  (forall cmd cwd (s : State World) p w,
      subprocess_run cmd cwd (world s) = (Spawned p, w) ->
      (returncode p <> 0%Z ->
       exists s',
         _run_cmd_capture cmd cwd s
         = (Raise (HTTPException 500
                     (banner_text (clock (ticks s)) "COMMAND FAILED ❌"
                      +:+ Py.NL
                      +:+ "┏━━━━━━━━━━━━━━━━━━━━━━━━━━━━━━━━━━━━━━━━━━━━━━━━━━━━━━━━━━━━━━━━━━━━━━━━━━━━━━━━━━━━━━━━━━━━┓" +:+ Py.NL
                      +:+ "┃ COMMAND                                                                                    ┃" +:+ Py.NL
                      +:+ "┣━━━━━━━━━━━━━━━━━━━━━━━━━━━━━━━━━━━━━━━━━━━━━━━━━━━━━━━━━━━━━━━━━━━━━━━━━━━━━━━━━━━━━━━━━━━━┫" +:+ Py.NL
                      +:+ "┃ CWD : " +:+ cwd +:+ Py.NL
                      +:+ "┃ CMD : " +:+ Py.join " " cmd +:+ Py.NL
                      +:+ "┗━━━━━━━━━━━━━━━━━━━━━━━━━━━━━━━━━━━━━━━━━━━━━━━━━━━━━━━━━━━━━━━━━━━━━━━━━━━━━━━━━━━━━━━━━━━━┛" +:+ Py.NL
                      +:+ "Exit Code: " +:+ Py.str_of_int (returncode p)
                      +:+ Py.NL +:+ Py.NL
                      +:+ (Py.or_empty (stdout p) +:+ Py.or_empty (stderr p)))),
            s')
         /\ invocations s'
            = invocations s ++ [invocation_of cmd cwd (Spawned p)])
      /\ (returncode p = 0%Z ->
          exists s',
            _run_cmd_capture cmd cwd s
            = (Ok (Py.or_empty (stdout p) +:+ Py.or_empty (stderr p)), s')
            /\ invocations s'
               = invocations s ++ [invocation_of cmd cwd (Spawned p)]))
  /\ (forall cmd cwd (s : State World) r w e,
        subprocess_run cmd cwd (world s) = (r, w) ->
        raised_by r = Some e ->
        exists s',
          _run_cmd_capture cmd cwd s = (Raise e, s')
          /\ invocations s' = invocations s ++ [invocation_of cmd cwd r])
  /\ (forall req (s : State World) r s' ivs,
        deploy req s = (r, s') ->
        invocations s' = invocations s ++ ivs ->
        Forall (fun i => exited_zero i = true) (removelast ivs)
        /\ (forall resp,
              r = Ok resp -> Forall (fun i => exited_zero i = true) ivs)).
Proof.
  split; [|split].
  - intros cmd cwd s p w Hrun. split; intros Hrc.
    + rewrite run_cmd_capture_run, Hrun.
      apply Z.eqb_neq in Hrc. rewrite Hrc.
      eexists. split.
      { unfold failure_detail, _cmd_block, captured.
        rewrite !append_assoc. reflexivity. }
      now autorewrite with state.
    + rewrite run_cmd_capture_run, Hrun, Hrc. cbn [Z.eqb].
      eexists. split; [reflexivity|]. now autorewrite with state.
  - intros cmd cwd s r w e Hrun Hraise.
    rewrite run_cmd_capture_run, Hrun.
    destruct r; inversion Hraise; subst;
      (eexists; split; [reflexivity | now autorewrite with state]).
  - intros req s r s' ivs H Hivs.
    apply deploy_trace in H as (cs & ivs0 & _ & Hivs0 & Hlast & Hok & _).
    rewrite Hivs0 in Hivs. apply app_inv_head in Hivs as ->. now split.
Qed.

Lemma command_runner_contract_witness :
  (exists s',
      _run_cmd_capture (Scripted.git_pull "main") Scripted.back_dir
        (Scripted.start Scripted.pull_conflict)
      = (Raise (HTTPException 500
                  (banner_text "2024-05-01 12:00:00" "COMMAND FAILED ❌"
                   +:+ Py.NL
                   +:+ "┏━━━━━━━━━━━━━━━━━━━━━━━━━━━━━━━━━━━━━━━━━━━━━━━━━━━━━━━━━━━━━━━━━━━━━━━━━━━━━━━━━━━━━━━━━━━━┓" +:+ Py.NL
                   +:+ "┃ COMMAND                                                                                    ┃" +:+ Py.NL
                   +:+ "┣━━━━━━━━━━━━━━━━━━━━━━━━━━━━━━━━━━━━━━━━━━━━━━━━━━━━━━━━━━━━━━━━━━━━━━━━━━━━━━━━━━━━━━━━━━━━┫" +:+ Py.NL
                   +:+ "┃ CWD : " +:+ "/home/elyvium/projects/ecosystem/elyvium-ecosystem" +:+ Py.NL
                   +:+ "┃ CMD : " +:+ "git pull origin main" +:+ Py.NL
                   +:+ "┗━━━━━━━━━━━━━━━━━━━━━━━━━━━━━━━━━━━━━━━━━━━━━━━━━━━━━━━━━━━━━━━━━━━━━━━━━━━━━━━━━━━━━━━━━━━━┛" +:+ Py.NL
                   +:+ "Exit Code: 1" +:+ Py.NL +:+ Py.NL +:+ "conflict")),
         s')
      /\ map call (invocations s')
         = [(Scripted.git_pull "main", Scripted.back_dir)])
  /\ (exists s',
        _run_cmd_capture Scripted.git_fetch Scripted.back_dir
          (Scripted.start Scripted.pull_conflict)
        = (Ok "fetched", s')
        /\ map call (invocations s')
           = [(Scripted.git_fetch, Scripted.back_dir)])
  /\ (exists s',
        _run_cmd_capture ["bash"; Scripted.front_dir +:+ "/./deploy.sh"; "main"]
          Scripted.front_dir (Scripted.start Samples.no_bash)
        = (Raise (OSError "[Errno 2] No such file or directory: 'bash'"), s')
        /\ map call (invocations s')
           = [(["bash"; Scripted.front_dir +:+ "/./deploy.sh"; "main"],
               Scripted.front_dir)])
  /\ Forall (fun i => exited_zero i = true)
       (removelast
          (invocations
             (snd (Scripted.deploy
                     (Scripted.request "DEV" Scripted.front_dir
                        Scripted.back_dir "main")
                     Scripted.pull_conflict)))).
Proof.
  pose proof (@command_runner_contract Scripted.T Scripted.os)
    as (Hreturn & Hraise & Hreq).
  split; [|split; [|split]].
  - destruct (Hreturn (Scripted.git_pull "main") Scripted.back_dir
                (Scripted.start Scripted.pull_conflict)
                {| returncode := 1; stdout := Some ""; stderr := Some "conflict" |}
                Scripted.pull_conflict eq_refl) as [Hfail _].
    destruct (Hfail ltac:(discriminate)) as (s' & Hs' & Hinv).
    exists s'. split; [exact Hs'|]. rewrite Hinv. reflexivity.
  - destruct (Hreturn Scripted.git_fetch Scripted.back_dir
                (Scripted.start Scripted.pull_conflict)
                {| returncode := 0; stdout := Some "fetched"; stderr := Some "" |}
                Scripted.pull_conflict eq_refl) as [_ Hok].
    destruct (Hok eq_refl) as (s' & Hs' & Hinv).
    exists s'. split; [exact Hs'|]. rewrite Hinv. reflexivity.
  - destruct (Hraise ["bash"; Scripted.front_dir +:+ "/./deploy.sh"; "main"]
                Scripted.front_dir (Scripted.start Samples.no_bash) _ _ _
                eq_refl eq_refl) as (s' & Hs' & Hinv).
    exists s'. split; [exact Hs'|]. rewrite Hinv. reflexivity.
  - apply (Hreq (Scripted.request "DEV" Scripted.front_dir Scripted.back_dir
                   "main")
             (Scripted.start Scripted.pull_conflict) _ _ _
             (surjective_pairing _) eq_refl).
Defined.

(** C4 as stated fails. The error for a non-zero exit does not carry the
    argv: it is one text in which the argv is joined by spaces, so the
    two-token argv [docker], [compose up] and the three-token argv
    [docker], [compose], [up] fail with the same error, status and detail.
    And a zero exit does not always give the output back: a fetch that
    exits zero after writing a byte that is no UTF-8 makes
    [subprocess.run] raise, and the runner ends with [UnicodeDecodeError]
    instead of returning. *)
Lemma command_runner_contract_counterexample :
  ["docker"; "compose up"] <> ["docker"; "compose"; "up"]
  /\ (exists d s1 s2,
        _run_cmd_capture ["docker"; "compose up"] Scripted.back_dir
          (Scripted.start Samples.compose_fails)
        = (Raise (HTTPException 500 d), s1)
        /\ _run_cmd_capture ["docker"; "compose"; "up"] Scripted.back_dir
             (Scripted.start Samples.compose_fails)
           = (Raise (HTTPException 500 d), s2)
        /\ Py.contains d "CMD : docker compose up" = true)
  /\ (exists s' i,
        _run_cmd_capture Scripted.git_fetch Scripted.back_dir
          (Scripted.start Samples.binary_output)
        = (Raise (UnicodeDecodeError
                    "'utf-8' codec can't decode byte 0xff in position 0: invalid start byte"),
           s')
        /\ invocations s' = [i]
        /\ call i = (Scripted.git_fetch, Scripted.back_dir)
        /\ process_status (inv_result i) = Some 0%Z).
Proof.
  split; [discriminate|]. split.
  - do 3 eexists. split; [vm_compute; reflexivity|].
    split; vm_compute; reflexivity.
  - do 2 eexists. split; [vm_compute; reflexivity|].
    repeat split.
Qed.








(** C8. Precondition failures are raised before the commands of the
    stage: the git-repository assertion fails with [Directory not found]
    when the path is no directory and with [Not a git repo] when it has no
    [.git] directory, the file assertion fails with [File not found] when
    the path is no regular file; a stage that ends with such an error has
    invoked nothing; an error of the frontend stage ends the request, so
    the backend stage does not start; and a precondition error of the
    backend stage ends the request with no backend command invoked. *)
Theorem preconditions_stop_the_stage {World : Type} {os : OS World} :
  (forall path (s : State World),
      (os_path_isdir (world s) path = false ->
       _assert_git_repo path s
       = (Raise (HTTPException 400 ("Directory not found: " +:+ path)),
          checked (IsDir path false) s))
      /\ (os_path_isdir (world s) path = true ->
          os_path_isdir (world s) (OsPath.join path ".git") = false ->
          _assert_git_repo path s
          = (Raise (HTTPException 400
                      ("Not a git repo (.git not found): " +:+ path)),
             checked (IsDir (OsPath.join path ".git") false)
               (checked (IsDir path true) s)))
      /\ (os_path_isfile (world s) path = false ->
          _assert_file_exists path s
          = (Raise (HTTPException 400 ("File not found: " +:+ path)),
             checked (IsFile path false) s)))
  /\ (forall env front br (s : State World),
        Py.truthy (front_deploy_script env) = true ->
        let script_path :=
          OsPath.join front (Py.or_empty (front_deploy_script env)) in
        (os_path_isdir (world s) front = false ->
         exists s',
           _deploy_frontend env front br s
           = (Raise (HTTPException 400 ("Directory not found: " +:+ front)),
              s')
           /\ invocations s' = invocations s)
        /\ (os_path_isdir (world s) front = true ->
            os_path_isdir (world s) (OsPath.join front ".git") = false ->
            exists s',
              _deploy_frontend env front br s
              = (Raise (HTTPException 400
                          ("Not a git repo (.git not found): " +:+ front)),
                 s')
              /\ invocations s' = invocations s)
        /\ (os_path_isdir (world s) front = true ->
            os_path_isdir (world s) (OsPath.join front ".git") = true ->
            os_path_isfile (world s) script_path = false ->
            exists s',
              _deploy_frontend env front br s
              = (Raise (HTTPException 400
                          ("File not found: " +:+ script_path)), s')
              /\ invocations s' = invocations s))
  /\ (forall env back br (s : State World),
        (os_path_isdir (world s) back = false ->
         exists s',
           _deploy_backend env back br s
           = (Raise (HTTPException 400 ("Directory not found: " +:+ back)),
              s')
           /\ invocations s' = invocations s)
        /\ (os_path_isdir (world s) back = true ->
            os_path_isdir (world s) (OsPath.join back ".git") = false ->
            exists s',
              _deploy_backend env back br s
              = (Raise (HTTPException 400
                          ("Not a git repo (.git not found): " +:+ back)),
                 s')
              /\ invocations s' = invocations s))
  /\ (forall env dir br (s s' : State World) d,
        (_deploy_frontend env dir br s = (Raise (HTTPException 400 d), s')
         \/ _deploy_backend env dir br s = (Raise (HTTPException 400 d), s')) ->
        invocations s' = invocations s)
  /\ (forall req env (s : State World),
        ENVS_BY_KEY !! env_key req = Some env ->
        _is_under_allowed_roots (os_getcwd (world s)) (work_front_dir req)
        = true ->
        _is_under_allowed_roots (os_getcwd (world s)) (work_back_dir req)
        = true ->
        let s1 := after_header req env s in
        world s1 = world s
        /\ invocations s1 = invocations s
        /\ (forall e s2,
              _deploy_frontend env (work_front_dir req) (branch req) s1
              = (Raise e, s2) ->
              deploy req s = (Raise e, s2))
        /\ (forall front s2 e s3,
              _deploy_frontend env (work_front_dir req) (branch req) s1
              = (Ok front, s2) ->
              _deploy_backend env (work_back_dir req) (branch req) s2
              = (Raise e, s3) ->
              deploy req s = (Raise e, s3))).
Proof.
  split; [|split; [|split; [|split]]].
  - intros path s. repeat split.
    + intros H. rewrite assert_git_repo_run. cbv zeta. now rewrite H.
    + intros H1 H2. rewrite assert_git_repo_run. cbv zeta.
      now rewrite H1, H2.
    + intros H. rewrite assert_file_exists_run. cbv zeta. now rewrite H.
  - intros env front br s Ht. now apply frontend_precondition_fails.
  - intros env back br s. apply backend_precondition_fails.
  - intros env dir br s s' d [H|H].
    + apply frontend_trace in H as (cs & ivs & _ & Hivs & _ & _ & _ & H400 & _).
      rewrite Hivs, (H400 d eq_refl). apply app_nil_r.
    + apply backend_trace in H as (cs & ivs & _ & Hivs & _ & _ & _ & H400 & _).
      rewrite Hivs, (H400 d eq_refl). apply app_nil_r.
  - intros req env s Henv Hf Hb. cbv zeta.
    split; [reflexivity|]. split; [reflexivity|]. split.
    + intros e s2 H. rewrite (deploy_decompose req env) by assumption.
      now rewrite H.
    + intros front s2 e s3 H1 H2.
      rewrite (deploy_decompose req env) by assumption.
      now rewrite H1, H2.
Qed.

Lemma preconditions_stop_the_stage_witness :
  (exists s',
      _deploy_backend Scripted.dev_env "/home/elyvium/projects/ecosystem/gone"
        "main" (Scripted.start Scripted.all_fine)
      = (Raise (HTTPException 400
                  "Directory not found: /home/elyvium/projects/ecosystem/gone"),
         s')
      /\ invocations s' = [])
  /\ (exists s',
        _deploy_frontend Scripted.test_env Scripted.back_dir "main"
          (Scripted.start Scripted.all_fine)
        = (Raise (HTTPException 400
                    ("File not found: " +:+ Scripted.back_dir
                     +:+ "/./deploy.sh")),
           s')
        /\ invocations s' = []).
Proof.
  pose proof (@preconditions_stop_the_stage Scripted.T Scripted.os)
    as (_ & Hfront & Hback & _).
  split.
  - apply (proj1 (Hback Scripted.dev_env
                    "/home/elyvium/projects/ecosystem/gone" "main"
                    (Scripted.start Scripted.all_fine)) eq_refl).
  - apply (proj2 (proj2 (Hfront Scripted.test_env Scripted.back_dir "main"
                           (Scripted.start Scripted.all_fine) eq_refl))
             eq_refl eq_refl eq_refl).
Defined.

(** * Further facts *)

(** ** Whole runs *)

Section RunFacts.
Context {World : Type} {os : OS World}.
Implicit Types (s : State World).

Lemma frontend_run_summary (env : EnvConfig) (front br : string) s r s' :
  _deploy_frontend env front br s = (r, s') ->
  exists cs ivs,
    fs_checks s' = fs_checks s ++ cs
    /\ invocations s' = invocations s ++ ivs
    /\ map call ivs `prefix_of` frontend_plan env front br
    /\ (forall log, r = Ok log -> map call ivs = frontend_plan env front br)
    /\ cs `prefix_of` frontend_checks (world s) env front
    /\ (ivs <> [] \/ (exists log, r = Ok log) ->
        cs = frontend_checks (world s) env front
        /\ Forall (fun c => fs_answer c = true) cs).
Proof.
  unfold _deploy_frontend, bind. intros H.
  stage_cases H; autorewrite with state; rewrite <- ?app_assoc; cbn [app].
  all: do 2 eexists; split; [extends|]; split; [extends|].
  all: unfold frontend_plan, frontend_checks, git_repo_checks, frontend_cmd;
    rewrite ?Htruthy, ?Hdir, ?Hdir0, ?Hfile; cbn [app map call].
  all: split; [eexists; reflexivity|].
  all: split; [intros log Hr; try discriminate; reflexivity|].
  all: split; [eexists; reflexivity|].
  all: intros [Hne|[log Hlog]]; try congruence; try discriminate.
  all: split; [reflexivity | repeat constructor].
Qed.

Lemma backend_run_summary (env : EnvConfig) (back br : string) s r s' :
  _deploy_backend env back br s = (r, s') ->
  exists cs ivs,
    fs_checks s' = fs_checks s ++ cs
    /\ invocations s' = invocations s ++ ivs
    /\ cs `prefix_of` git_repo_checks (world s) back
    /\ (ivs <> [] \/ (exists log, r = Ok log) ->
        cs = git_repo_checks (world s) back
        /\ Forall (fun c => fs_answer c = true) cs).
Proof.
  unfold _deploy_backend, bind. intros H.
  stage_cases H; autorewrite with state; rewrite <- ?app_assoc; cbn [app].
  all: do 2 eexists; split; [extends|]; split; [extends|].
  all: unfold git_repo_checks; rewrite ?Hdir, ?Hdir0; cbn [app map call].
  all: split; [eexists; reflexivity|].
  all: intros [Hne|[log Hlog]]; try congruence; try discriminate.
  all: split; [reflexivity | repeat constructor].
Qed.

End RunFacts.

Section RequestRuns.
Context {World : Type} {os : OS World}.
Implicit Types (s : State World).

(** How a request is put together from its two stages, whatever the
    outcome. *)
Lemma deploy_run_summary (req : DeployRequest) (env : EnvConfig) s r s' :
  ENVS_BY_KEY !! env_key req = Some env ->
  deploy req s = (r, s') ->
  exists ivs,
    invocations s' = invocations s ++ ivs
    /\ map call ivs `prefix_of` request_plan env req.
Proof.
  intros Henv H.
  destruct (_is_under_allowed_roots (os_getcwd (world s)) (work_front_dir req)
            && _is_under_allowed_roots (os_getcwd (world s))
                 (work_back_dir req))%bool eqn:Hok.
  2:{ rewrite (deploy_forbidden_path req env) in H by assumption.
      inversion H; subst. exists []. rewrite app_nil_r.
      split; [reflexivity|]. eexists; reflexivity. }
  apply andb_prop in Hok as [Hf Hb].
  rewrite (deploy_decompose req env) in H by assumption.
  destruct (_deploy_frontend env (work_front_dir req) (branch req)
              (after_header req env s)) as [[front|e] s2] eqn:Hfront.
  - apply frontend_run_summary in Hfront
      as (cs1 & ivs1 & _ & Hivs1 & _ & Hfull & _).
    specialize (Hfull _ eq_refl).
    autorewrite with state in Hivs1.
    destruct (_deploy_backend env (work_back_dir req) (branch req) s2)
      as [rb s3] eqn:Hback.
    apply backend_trace in Hback as (cs2 & ivs2 & _ & Hivs2 & Hplan & _).
    exists (ivs1 ++ ivs2).
    assert (Hs' : invocations s' = invocations s3).
    { destruct rb; inversion H; subst; now autorewrite with state. }
    rewrite Hs', Hivs2, Hivs1, <- app_assoc.
    split; [reflexivity|].
    unfold request_plan. rewrite map_app, Hfull.
    destruct Hplan as [k ->]. exists k. now rewrite <- app_assoc.
  - inversion H; subst.
    apply frontend_run_summary in Hfront
      as (cs1 & ivs1 & _ & Hivs1 & Hplan & _).
    autorewrite with state in Hivs1.
    exists ivs1. split; [assumption|].
    unfold request_plan. destruct Hplan as [k ->].
    exists (k ++ backend_plan env (work_back_dir req) (branch req)).
    now rewrite <- app_assoc.
Qed.

End RequestRuns.

(** X1. The commands of a request to a registered environment are, in
    order, an initial part of: the frontend script (when one is
    configured), [git fetch origin], [git pull origin <branch>], the
    tokenized compose command; the first in the frontend directory, the
    others in the backend directory. Nothing else is ever run, and the
    branch and the directories of the request reach a command only as one
    whole argument or as its working directory. *)
Theorem request_calls_follow_plan
    {World : Type} {os : OS World} (req : DeployRequest) (env : EnvConfig)
    (s s' : State World) (r : Result DeployResponse) :
  ENVS_BY_KEY !! env_key req = Some env ->
  deploy req s = (r, s') ->
  exists ivs rest,
    invocations s' = invocations s ++ ivs
    /\ map call ivs ++ rest
       = (if Py.truthy (front_deploy_script env)
          then [ (["bash";
                   OsPath.join (work_front_dir req)
                     (Py.or_empty (front_deploy_script env));
                   branch req],
                  work_front_dir req) ]
          else [])
         ++ [ (["git"; "fetch"; "origin"], work_back_dir req);
              (["git"; "pull"; "origin"; branch req], work_back_dir req) ]
         ++ match Shlex.split (backend_compose_command env) with
            | Ok compose_args => [ (compose_args, work_back_dir req) ]
            | Raise _ => []
            end.
Proof.
  intros Henv H.
  destruct (deploy_run_summary req env s r s' Henv H)
    as (ivs & Hivs & [rest Hplan]).
  exists ivs, rest. split; [assumption|]. now rewrite <- Hplan.
Qed.

Lemma request_calls_follow_plan_witness :
  exists ivs rest,
    invocations (snd (Scripted.deploy Samples.test_request Scripted.pull_conflict))
    = [] ++ ivs
    /\ map call ivs ++ rest
       = [ (["bash"; Scripted.front_dir +:+ "/./deploy.sh"; "main"],
            Scripted.front_dir);
           (["git"; "fetch"; "origin"], Scripted.back_dir);
           (["git"; "pull"; "origin"; "main"], Scripted.back_dir);
           (["docker"; "compose"; "-p"; "elyvium-test"; "--env-file";
             ".env.test"; "up"; "--build"; "-d"], Scripted.back_dir) ].
Proof.
  apply (@request_calls_follow_plan Scripted.T Scripted.os
           Samples.test_request Scripted.test_env
           (Scripted.start Scripted.pull_conflict) _ _
           eq_refl (surjective_pairing _)).
Defined.

(** ** A NUL character in the branch *)

(* close the cases in which a call that is refused in every world, by
   Hlaw, has got another result *)
Ltac refused Hlaw :=
  try match goal with
      | Hr : subprocess_run _ _ ?w = _ |- _ =>
          let X := fresh "Hlaw" in
          pose proof (Hlaw w) as X; rewrite Hr in X; cbn [fst] in X;
          discriminate X
      end.

(* an invocation of a literal list either is the refused one, or has an
   argv of literals without NUL *)
Ltac refused_or_literal Hnul :=
  let i := fresh "i" in
  let Hin := fresh "Hin" in
  let Hbr := fresh "Hbr" in
  intros i Hin Hbr; cbn [In] in Hin;
  repeat (destruct Hin as [<-|Hin]); try contradiction;
  first [ split; reflexivity
        | cbn [In inv_cmd invocation_of] in Hbr;
          repeat (destruct Hbr as [<-|Hbr]); try contradiction;
          vm_compute in Hnul; discriminate Hnul ].

Section NulBranch.
Context {World : Type} {os : OS World}.
Implicit Types (s : State World).

Lemma nul_branch_refused (br : string) (cmd : list string) (cwd : string)
    (w : World) :
  Py.has_char Py.NUL br = true -> In br cmd ->
  fst (subprocess_run cmd cwd w) = NulByte.
Proof.
  intros Hnul Hin. apply nul_byte_refused.
  - intros ->. destruct Hin.
  - unfold has_nul. apply existsb_exists. exists br.
    split; [now right | assumption].
Qed.

Lemma frontend_nul_branch (env : EnvConfig) (front br : string) s r s' ivs :
  Py.has_char Py.NUL br = true ->
  Py.truthy (front_deploy_script env) = true ->
  _deploy_frontend env front br s = (r, s') ->
  invocations s' = invocations s ++ ivs ->
  (forall log, r <> Ok log)
  /\ (forall i, In i ivs ->
        inv_result i = NulByte
        /\ r = Raise (ValueError "embedded null byte")).
Proof.
  intros Hnul Ht H Hivs.
  pose proof (fun w =>
    nul_branch_refused br
      ["bash"; OsPath.join front (Py.or_empty (front_deploy_script env)); br]
      front w Hnul ltac:(cbn; auto)) as Hcall.
  unfold _deploy_frontend, bind in H. rewrite banner_run, Ht in H.
  cbn [negb] in H.
  stage_cases H; autorewrite with state in Hivs;
    rewrite <- ?app_assoc in Hivs; cbn [app] in Hivs;
    new_part Hivs; subst ivs.
  all: refused Hcall.
  all: split; [intros log; discriminate|].
  all: intros i Hin; cbn [In] in Hin;
    repeat (destruct Hin as [<-|Hin]); try contradiction.
  split; reflexivity.
Qed.

Lemma backend_nul_branch (env : EnvConfig) (back br : string) s r s' ivs :
  Py.has_char Py.NUL br = true ->
  _deploy_backend env back br s = (r, s') ->
  invocations s' = invocations s ++ ivs ->
  (forall log, r <> Ok log)
  /\ map call ivs `prefix_of`
       [ (["git"; "fetch"; "origin"], back);
         (["git"; "pull"; "origin"; br], back) ]
  /\ (forall i, In i ivs -> In br (inv_cmd i) ->
        inv_result i = NulByte
        /\ r = Raise (ValueError "embedded null byte")).
Proof.
  intros Hnul H Hivs.
  pose proof (fun w =>
    nul_branch_refused br ["git"; "pull"; "origin"; br] back w Hnul
      ltac:(cbn; auto)) as Hpull.
  unfold _deploy_backend, bind in H.
  stage_cases H; autorewrite with state in Hivs;
    rewrite <- ?app_assoc in Hivs; cbn [app] in Hivs;
    new_part Hivs; subst ivs.
  all: refused Hpull.
  all: split; [intros log; discriminate|].
  all: split; [eexists; reflexivity|].
  all: refused_or_literal Hnul.
Qed.

Lemma deploy_nul_branch (req : DeployRequest) (env : EnvConfig) s r s' ivs :
  ENVS_BY_KEY !! env_key req = Some env ->
  Py.has_char Py.NUL (branch req) = true ->
  deploy req s = (r, s') ->
  invocations s' = invocations s ++ ivs ->
  (forall resp, r <> Ok resp)
  /\ map call ivs `prefix_of`
       (if Py.truthy (front_deploy_script env)
        then [ (frontend_cmd env (work_front_dir req) (branch req),
                work_front_dir req) ]
        else [ (["git"; "fetch"; "origin"], work_back_dir req);
               (["git"; "pull"; "origin"; branch req], work_back_dir req) ])
  /\ (forall i, In i ivs -> In (branch req) (inv_cmd i) ->
        inv_result i = NulByte
        /\ r = Raise (ValueError "embedded null byte")).
Proof.
  intros Henv Hnul H Hivs.
  destruct (_is_under_allowed_roots (os_getcwd (world s)) (work_front_dir req)
            && _is_under_allowed_roots (os_getcwd (world s))
                 (work_back_dir req))%bool eqn:Hok.
  2:{ rewrite (deploy_forbidden_path req env) in H by assumption.
      inversion H; subst. apply app_self_inv in Hivs. subst ivs.
      split; [intros resp; discriminate|].
      split; [eexists; reflexivity | intros i []]. }
  apply andb_prop in Hok as [Hf Hb].
  rewrite (deploy_decompose req env) in H by assumption.
  destruct (Py.truthy (front_deploy_script env)) eqn:Ht.
  - destruct (_deploy_frontend env (work_front_dir req) (branch req)
                (after_header req env s)) as [rf s2] eqn:Hfront.
    pose proof Hfront as Hft.
    apply frontend_run_summary in Hft as (cs1 & ivs1 & _ & Hivs1 & Hplan & _).
    destruct (frontend_nul_branch _ _ _ _ _ _ _ Hnul Ht Hfront Hivs1)
      as [Hnot Hall].
    destruct rf as [front|e0]; [now destruct (Hnot front)|].
    inversion H; subst r s2.
    autorewrite with state in Hivs1.
    rewrite Hivs1 in Hivs. apply app_inv_head in Hivs as <-.
    split; [intros resp; discriminate|].
    split.
    { unfold frontend_plan in Hplan. now rewrite Ht in Hplan. }
    intros i Hin _. destruct (Hall i Hin) as [Hi He].
    split; [exact Hi | now inversion He].
  - rewrite frontend_skipped in H by assumption.
    destruct (_deploy_backend env (work_back_dir req) (branch req)
                (tick (after_header req env s))) as [rb s3] eqn:Hback.
    pose proof Hback as Hbt.
    apply backend_trace in Hbt as (cs2 & ivs2 & _ & Hivs2 & _).
    destruct (backend_nul_branch _ _ _ _ _ _ _ Hnul Hback Hivs2)
      as (Hnot & Hpre & Hall).
    destruct rb as [back|e]; [now destruct (Hnot back)|].
    inversion H; subst r s3.
    autorewrite with state in Hivs2.
    rewrite Hivs2 in Hivs. apply app_inv_head in Hivs as <-.
    split; [intros resp; discriminate|].
    split; [exact Hpre|].
    intros i Hin Hbr. destruct (Hall i Hin Hbr) as [Hi He].
    split; [exact Hi | now inversion He].
Qed.

End NulBranch.

(** X4. A NUL character in the branch of a request to a registered
    environment. [subprocess.run] refuses an argv that holds one, before
    any process runs, and the module catches nothing: the request never
    succeeds and never reaches the compose command. Its calls are an
    initial part of the frontend script call alone when a script is
    configured, and of [git fetch origin], [git pull origin <branch>]
    otherwise; and once a call that carries the branch is made, it is
    refused and the request ends with
    [ValueError('embedded null byte')]. *)
Theorem nul_branch_stops_request
    {World : Type} {os : OS World} (req : DeployRequest) (env : EnvConfig)
    (s s' : State World) (r : Result DeployResponse)
    (ivs : list Invocation) :
  ENVS_BY_KEY !! env_key req = Some env ->
  Py.has_char Py.NUL (branch req) = true ->
  deploy req s = (r, s') ->
  invocations s' = invocations s ++ ivs ->
  (forall resp, r <> Ok resp)
  /\ map call ivs `prefix_of`
       (if Py.truthy (front_deploy_script env)
        then [ (["bash";
                 OsPath.join (work_front_dir req)
                   (Py.or_empty (front_deploy_script env));
                 branch req],
                work_front_dir req) ]
        else [ (["git"; "fetch"; "origin"], work_back_dir req);
               (["git"; "pull"; "origin"; branch req], work_back_dir req) ])
  /\ (forall i,
        In i ivs -> In (branch req) (inv_cmd i) ->
        inv_result i = NulByte
        /\ r = Raise (ValueError "embedded null byte")).
Proof.
  intros Henv Hnul H Hivs.
  exact (deploy_nul_branch req env s r s' ivs Henv Hnul H Hivs).
Qed.

Lemma nul_branch_stops_request_witness :
  fst (Scripted.deploy Samples.nul_request Scripted.all_fine)
  = Raise (ValueError "embedded null byte")
  /\ map call
       (invocations
          (snd (Scripted.deploy Samples.nul_request Scripted.all_fine)))
     = [ (["git"; "fetch"; "origin"], Scripted.back_dir);
         (["git"; "pull"; "origin"; Samples.nul_branch], Scripted.back_dir) ].
Proof.
  destruct (@nul_branch_stops_request Scripted.T Scripted.os
              Samples.nul_request Scripted.dev_env
              (Scripted.start Scripted.all_fine) _ _ _
              eq_refl eq_refl (surjective_pairing _) eq_refl)
    as (_ & _ & Hcall).
  split; [|vm_compute; reflexivity].
  apply (Hcall (invocation_of (Scripted.git_pull Samples.nul_branch)
                  Scripted.back_dir NulByte)
           ltac:(vm_compute; auto) ltac:(cbn; auto)).
Defined.

Section MoreStageFacts.
Context {World : Type} {os : OS World}.
Implicit Types (s : State World).

Lemma frontend_first_check (env : EnvConfig) (front br : string) s :
  Py.truthy (front_deploy_script env) = true ->
  exists rest,
    fs_checks (snd (_deploy_frontend env front br s))
    = fs_checks s ++ IsDir front (os_path_isdir (world s) front) :: rest.
Proof.
  intros Ht.
  destruct (_deploy_frontend env front br s) as [r s'] eqn:H.
  unfold _deploy_frontend, bind in H. rewrite banner_run, Ht in H.
  cbn [negb] in H.
  stage_cases H; cbn [snd]; autorewrite with state; rewrite <- ?app_assoc;
    cbn [app]; eexists; reflexivity.
Qed.

Lemma backend_malformed_compose (env : EnvConfig) (back br : string) s
    (p1 p2 : CompletedProcess) (w1 w2 : World) (e : Exception) :
  os_path_isdir (world s) back = true ->
  os_path_isdir (world s) (OsPath.join back ".git") = true ->
  subprocess_run ["git"; "fetch"; "origin"] back (world s) = (Spawned p1, w1) ->
  returncode p1 = 0%Z ->
  subprocess_run ["git"; "pull"; "origin"; br] back w1 = (Spawned p2, w2) ->
  returncode p2 = 0%Z ->
  Shlex.split (backend_compose_command env) = Raise e ->
  exists s',
    _deploy_backend env back br s = (Raise e, s')
    /\ invocations s'
       = invocations s
         ++ [ invocation_of ["git"; "fetch"; "origin"] back (Spawned p1);
              invocation_of ["git"; "pull"; "origin"; br] back (Spawned p2) ]
    /\ world s' = w2.
Proof.
  intros Hd Hg H1 Hz1 H2 Hz2 Hlex.
  destruct (_deploy_backend env back br s) as [r s'] eqn:H.
  unfold _deploy_backend, bind in H.
  run_equations H; autorewrite with state in H.
  rewrite Hd, Hg in H. run_equations H; autorewrite with state in H.
  rewrite H1 in H. cbv beta iota zeta in H. rewrite Hz1 in H.
  cbn [Z.eqb] in H. run_equations H; autorewrite with state in H.
  rewrite H2 in H. cbv beta iota zeta in H. rewrite Hz2 in H.
  cbn [Z.eqb] in H. rewrite Hlex in H.
  run_equations H. inversion H; subst.
  eexists. split; [reflexivity|]. autorewrite with state.
  rewrite <- app_assoc. split; reflexivity.
Qed.

End MoreStageFacts.

(** X3. Within a stage the filesystem checks come before the commands and
    are answered in the world in which the stage starts: the checks a
    stage records are an initial part of its planned checks (directory,
    [.git] directory and, for the frontend, the script file), and a stage
    that has invoked a command has made all of them and got yes each
    time. A frontend stage without script makes none. *)
Theorem stage_checks_come_first {World : Type} {os : OS World} :
  (forall env front br (s s' : State World) r,
      _deploy_frontend env front br s = (r, s') ->
      exists cs ivs,
        fs_checks s' = fs_checks s ++ cs
        /\ invocations s' = invocations s ++ ivs
        /\ cs `prefix_of` frontend_checks (world s) env front
        /\ (ivs <> [] ->
            cs = frontend_checks (world s) env front
            /\ Forall (fun c => fs_answer c = true) cs))
  /\ (forall env back br (s s' : State World) r,
        _deploy_backend env back br s = (r, s') ->
        exists cs ivs,
          fs_checks s' = fs_checks s ++ cs
          /\ invocations s' = invocations s ++ ivs
          /\ cs `prefix_of`
               [ IsDir back (os_path_isdir (world s) back);
                 IsDir (OsPath.join back ".git")
                   (os_path_isdir (world s) (OsPath.join back ".git")) ]
          /\ (ivs <> [] ->
              cs = [ IsDir back true; IsDir (OsPath.join back ".git") true ]))
  /\ (forall env front (w : World),
        Py.truthy (front_deploy_script env) = false ->
        frontend_checks w env front = []).
Proof.
  split; [|split].
  - intros env front br s s' r H.
    apply frontend_run_summary in H
      as (cs & ivs & Hcs & Hivs & _ & _ & Hpre & Hall).
    exists cs, ivs. repeat split; try assumption; apply Hall; now left.
  - intros env back br s s' r H.
    apply backend_run_summary in H
      as (cs & ivs & Hcs & Hivs & Hpre & Hall).
    exists cs, ivs. split; [assumption|]. split; [assumption|].
    split; [exact Hpre|]. intros Hne.
    destruct (Hall (or_introl Hne)) as [-> Hyes].
    unfold git_repo_checks in *.
    inversion Hyes as [|? ? H1 Hyes']; subst.
    inversion Hyes' as [|? ? H2 _]; subst.
    cbn [fs_answer] in H1, H2. now rewrite H1, H2.
  - intros env front w H. unfold frontend_checks. now rewrite H.
Qed.

Lemma stage_checks_come_first_witness :
  exists cs ivs,
    fs_checks
      (snd (_deploy_backend Scripted.dev_env Scripted.back_dir "main"
              (Scripted.start Scripted.fetch_fails)))
    = [] ++ cs
    /\ invocations
         (snd (_deploy_backend Scripted.dev_env Scripted.back_dir "main"
                 (Scripted.start Scripted.fetch_fails)))
       = [] ++ ivs
    /\ cs `prefix_of`
         [ IsDir Scripted.back_dir true;
           IsDir (OsPath.join Scripted.back_dir ".git") true ]
    /\ (ivs <> [] ->
        cs = [ IsDir Scripted.back_dir true;
               IsDir (OsPath.join Scripted.back_dir ".git") true ]).
Proof.
  apply (proj1 (proj2 (@stage_checks_come_first Scripted.T Scripted.os))
           Scripted.dev_env Scripted.back_dir "main"
           (Scripted.start Scripted.fetch_fails) _ _
           (surjective_pairing _)).
Defined.





(** ** The registry as a dictionary *)

Section DictFacts.

Lemma dict_fold_cons (envs : list EnvConfig) (x : EnvConfig)
    (m : gmap string EnvConfig) :
  fold_left (fun m e => <[key e := e]> m) (x :: envs) m
  = fold_left (fun m e => <[key e := e]> m) envs (<[key x := x]> m).
Proof. reflexivity. Qed.

(** Entries with other keys leave the lookup of [k] as it is. *)
Lemma dict_fold_other_keys (envs : list EnvConfig) (k : string)
    (m : gmap string EnvConfig) :
  Forall (fun x => key x <> k) envs ->
  fold_left (fun m e => <[key e := e]> m) envs m !! k = m !! k.
Proof.
  revert m. induction envs as [|x envs IH]; intros m H; [reflexivity|].
  inversion H; subst. rewrite dict_fold_cons, IH by assumption.
  now apply lookup_insert_ne.
Qed.

Lemma dict_by_key_last (l1 l2 : list EnvConfig) (e : EnvConfig) :
  Forall (fun x => key x <> key e) l2 ->
  dict_by_key (l1 ++ e :: l2) !! key e = Some e.
Proof.
  intros H. unfold dict_by_key.
  rewrite fold_left_app, dict_fold_cons, dict_fold_other_keys by assumption.
  apply lookup_insert_eq.
Qed.

Lemma dict_by_key_missing (envs : list EnvConfig) (k : string) :
  dict_by_key envs !! k = None <-> ~ In k (map key envs).
Proof.
  induction envs as [|x envs IH] using rev_ind.
  - split; [intros _ [] | reflexivity].
  - rewrite dict_by_key_snoc, map_app, in_app_iff. cbn [map In].
    destruct (decide (key x = k)) as [<-|Hne].
    + rewrite lookup_insert_eq. split; [discriminate | intros H].
      exfalso. apply H. right. now left.
    + rewrite lookup_insert_ne by assumption. rewrite IH. tauto.
Qed.

Lemma dict_by_key_found (envs : list EnvConfig) (k : string) (e : EnvConfig) :
  dict_by_key envs !! k = Some e ->
  exists l1 l2,
    envs = l1 ++ e :: l2 /\ key e = k /\ Forall (fun x => key x <> k) l2.
Proof.
  induction envs as [|x envs IH] using rev_ind; intros H; [discriminate|].
  rewrite dict_by_key_snoc in H.
  destruct (decide (key x = k)) as [<-|Hne].
  - rewrite lookup_insert_eq in H. inversion H; subst.
    exists envs, []. repeat split. constructor.
  - rewrite lookup_insert_ne in H by assumption.
    destruct (IH H) as (l1 & l2 & -> & Hk & Hl2).
    exists l1, (l2 ++ [x]). rewrite <- app_assoc. repeat split; [assumption|].
    apply Forall_app. split; [assumption | now repeat constructor].
Qed.

End DictFacts.

(** X7. The registry dictionary of any table: a key is missing from the
    dictionary exactly when no entry of the listing carries it, and the
    lookup of a key returns the last entry of the table with that key
    (an earlier entry with the same key is listed but can never be
    deployed to). *)
Theorem registry_lookup_last_wins (envs : list EnvConfig) (k : string) :
  (dict_by_key envs !! k = None
   <-> ~ In k (map entry_env_key (list_envs_of envs)))
  /\ (forall e,
        dict_by_key envs !! k = Some e
        <-> exists l1 l2,
              envs = l1 ++ e :: l2
              /\ key e = k
              /\ Forall (fun x => key x <> k) l2).
Proof.
  split.
  - rewrite dict_by_key_missing. unfold list_envs_of. rewrite map_map.
    reflexivity.
  - intros e. split; [apply dict_by_key_found|].
    intros (l1 & l2 & -> & <- & H). now apply dict_by_key_last.
Qed.

Lemma registry_lookup_last_wins_witness :
  dict_by_key (ENVS ++ [Samples.broken_env; Scripted.dev_env]) !! "DEV"
  = Some Scripted.dev_env.
Proof.
  apply (proj2 (registry_lookup_last_wins
                  (ENVS ++ [Samples.broken_env; Scripted.dev_env]) "DEV")
           Scripted.dev_env).
  exists (ENVS ++ [Samples.broken_env]), [].
  split; [reflexivity|]. split; [reflexivity | constructor].
Defined.

(** ** More on the path guard *)

(** X8. A path with exactly two leading slashes is refused, whatever
    follows: [os.path.normpath] keeps a double leading slash, so the
    normalized path cannot start with an allowed root, although such a
    path names the same directory as its single-slash form. *)
Theorem guard_refuses_double_slash (cwd rest : string) :
  Py.startswith rest "/" = false ->
  _is_under_allowed_roots cwd ("//" +:+ rest) = false.
Proof.
  intros Hrest.
  unfold _is_under_allowed_roots, ALLOWED_ROOTS, OsPath.abspath.
  rewrite !append_cons, append_nil_l, startswith_cons.
  cbn [Ascii.eqb Bool.eqb andb Py.startswith existsb].
  rewrite orb_false_r. unfold OsPath.normpath.
  assert (Hs : OsPath.initial_slashes (String "/" (String "/" rest)) = 2).
  { unfold OsPath.initial_slashes. rewrite !startswith_cons.
    cbn [Ascii.eqb Bool.eqb andb]. rewrite Hrest. reflexivity. }
  rewrite Hs.
  change (String "/" (String "/" rest) =? "") with false. cbv iota.
  change (Py.repeat_str "/" 2 +:+ ?x) with (String "/" (String "/" x)).
  change (String "/" (String "/" ?x) =? "") with false. cbv iota.
  reflexivity.
Qed.

Lemma guard_refuses_double_slash_witness :
  _is_under_allowed_roots "/srv"
    ("//" +:+ "home/elyvium/projects/ecosystem/elyvium-ecosystem") = false.
Proof.
  apply (guard_refuses_double_slash "/srv"
           "home/elyvium/projects/ecosystem/elyvium-ecosystem" eq_refl).
Defined.

(** ** The tokenizer on plain words *)

Section PlainWords.

Lemma append_nil_r (a : string) : a +:+ "" = a.
Proof.
  induction a as [|x a IH]; [reflexivity|]. now rewrite append_cons, IH.
Qed.

Lemma plain_char_spec (c : ascii) :
  plain_char c = true ->
  Shlex.is_whitespace c = false /\ Shlex.is_quote c = false
  /\ Shlex.is_escape c = false.
Proof.
  unfold plain_char. intros H. apply negb_true_iff in H.
  apply orb_false_elim in H as [H ?]. apply orb_false_elim in H as [? ?].
  auto.
Qed.

(** Inside a word, plain characters are appended to the token. *)
Lemma read_plain_text (w rest token : string) :
  plain_text w = true ->
  Shlex.read_tokens Shlex.InWord token (w +:+ rest)
  = Shlex.read_tokens Shlex.InWord (token +:+ w) rest.
Proof.
  revert token. induction w as [|c w IH]; intros token H.
  - now rewrite append_nil_l, append_nil_r.
  - cbn [plain_text] in H. apply andb_prop in H as [Hc Hw].
    apply plain_char_spec in Hc as (Hws & Hq & He).
    rewrite append_cons. cbn [Shlex.read_tokens]. rewrite Hws, Hq, He.
    rewrite IH by assumption. unfold Shlex.push.
    now rewrite append_assoc.
Qed.

(** Between words, a plain word is read to its end. *)
Lemma read_plain_word (w rest : string) :
  plain_word w = true ->
  Shlex.read_tokens Shlex.InWhitespace "" (w +:+ rest)
  = Shlex.read_tokens Shlex.InWord w rest.
Proof.
  unfold plain_word. intros H. apply andb_prop in H as [Hne Hw].
  destruct w as [|c w]; [discriminate|].
  cbn [plain_text] in Hw. apply andb_prop in Hw as [Hc Hw].
  apply plain_char_spec in Hc as (Hws & Hq & He).
  rewrite append_cons. cbn [Shlex.read_tokens]. rewrite Hws, Hq, He.
  now rewrite read_plain_text.
Qed.

End PlainWords.

(** X9. Tokenizing undoes joining for plain words: when every word is
    non-empty and free of whitespace, quotes and backslashes,
    [shlex.split] of the words joined by single spaces gives the words
    back. So for a compose command written as plain words, the [CMD] line
    of the command block, which joins the tokens by spaces, shows the
    configured text. *)
Theorem split_joined_plain_words (words : list string) :
  Forall (fun w => plain_word w = true) words ->
  Shlex.split (Py.join " " words) = Ok words
  /\ (forall toks,
        Shlex.split (Py.join " " words) = Ok toks ->
        Py.join " " toks = Py.join " " words).
Proof.
  intros H.
  assert (E : Shlex.split (Py.join " " words) = Ok words).
  { unfold Shlex.split.
    induction words as [|w [|w2 l] IH].
    - reflexivity.
    - inversion H; subst. change (Py.join " " [w]) with w.
      replace (Shlex.read_tokens Shlex.InWhitespace "" w)
        with (Shlex.read_tokens Shlex.InWhitespace "" (w +:+ ""))
        by now rewrite append_nil_r.
      now rewrite read_plain_word.
    - inversion H as [|? ? Hw Hrest]; subst.
      change (Py.join " " (w :: w2 :: l))
        with (w +:+ " " +:+ Py.join " " (w2 :: l)).
      rewrite read_plain_word by assumption.
      rewrite append_cons, append_nil_l. cbn [Shlex.read_tokens].
      change (Shlex.is_whitespace " ") with true. cbv iota.
      now rewrite (IH Hrest). }
  split; [exact E|]. intros toks Ht. rewrite E in Ht. now inversion Ht.
Qed.

Lemma split_joined_plain_words_witness :
  Shlex.split
    (Py.join " "
       ["docker"; "compose"; "--env-file"; ".env.dev"; "up"; "--build"; "-d"])
  = Ok ["docker"; "compose"; "--env-file"; ".env.dev"; "up"; "--build"; "-d"].
Proof.
  apply (proj1 (split_joined_plain_words
                  ["docker"; "compose"; "--env-file"; ".env.dev"; "up";
                   "--build"; "-d"]
                  ltac:(repeat constructor))).
Defined.

(** ** The terminal *)

Section TerminalFacts.
Context {World : Type} {os : OS World}.
Implicit Types (s : State World).

Lemma terminal_tick s : terminal (tick s) = terminal s.
Proof. reflexivity. Qed.
Lemma terminal_printed x s : terminal (printed x s) = terminal s ++ [x].
Proof. reflexivity. Qed.
Lemma terminal_checked c s : terminal (checked c s) = terminal s.
Proof. reflexivity. Qed.
Lemma terminal_invoked i w s : terminal (invoked i w s) = terminal s.
Proof. reflexivity. Qed.
Lemma terminal_echoed o s :
  terminal (echoed o s) = terminal s ++ echo_lines o.
Proof.
  unfold echoed, echo_lines. destruct (negb _); cbn.
  - now rewrite <- !app_assoc.
  - now rewrite app_nil_r.
Qed.
Lemma terminal_after_header req env s :
  terminal (after_header req env s)
  = terminal s ++ started_lines (clock (ticks s)) env req.
Proof.
  unfold after_header, started_lines. cbn. now rewrite <- !app_assoc.
Qed.
Lemma terminal_after_footer env s :
  terminal (after_footer env s)
  = terminal s
    ++ [ banner_text (clock (S (ticks s)))
           ("DEPLOY FINISHED ✅ | " +:+ name env) +:+ Py.NL ].
Proof. reflexivity. Qed.

End TerminalFacts.

Create Rewrite HintDb terminal.
#[export] Hint Rewrite @terminal_tick @terminal_printed @terminal_checked
  @terminal_invoked @terminal_echoed : terminal.

Section TerminalOfStages.
Context {World : Type} {os : OS World}.
Implicit Types (s : State World).

Lemma frontend_terminal (env : EnvConfig) (front br : string) s r s' ivs :
  _deploy_frontend env front br s = (r, s') ->
  invocations s' = invocations s ++ ivs ->
  terminal s' = terminal s ++ concat (map terminal_lines_of ivs).
Proof.
  unfold _deploy_frontend, bind. intros H Hivs.
  stage_cases H; autorewrite with state in Hivs;
    rewrite <- ?app_assoc in Hivs; new_part Hivs; subst ivs.
  all: autorewrite with terminal; rewrite <- ?app_assoc.
  all: cbn [map concat terminal_lines_of inv_result inv_cmd inv_cwd
            invocation_of app].
  all: rewrite ?app_nil_r; reflexivity.
Qed.

Lemma backend_terminal (env : EnvConfig) (back br : string) s r s' ivs :
  _deploy_backend env back br s = (r, s') ->
  invocations s' = invocations s ++ ivs ->
  terminal s' = terminal s ++ concat (map terminal_lines_of ivs).
Proof.
  unfold _deploy_backend, bind. intros H Hivs.
  stage_cases H; autorewrite with state in Hivs;
    rewrite <- ?app_assoc in Hivs; new_part Hivs; subst ivs.
  all: autorewrite with terminal; rewrite <- ?app_assoc.
  all: cbn [map concat terminal_lines_of inv_result inv_cmd inv_cwd
            invocation_of app].
  all: rewrite ?app_nil_r; reflexivity.
Qed.

End TerminalOfStages.



(** ** Trailing separators and the empty path *)

Section TrailingSlash.

Lemma split_not_nil (c : ascii) (p : string) : Py.split c p <> [].
Proof.
  destruct p as [|a p]; cbn [Py.split]; [discriminate|].
  destruct (Ascii.eqb a c); [discriminate|].
  destruct (Py.split c p); discriminate.
Qed.

Lemma split_trailing_sep (p : string) :
  Py.split "/" (p +:+ "/") = Py.split "/" p ++ [""].
Proof.
  induction p as [|c p IH]; [reflexivity|].
  rewrite append_cons. cbn [Py.split]. rewrite IH.
  destruct (Ascii.eqb c "/"); [reflexivity|].
  pose proof (split_not_nil "/" p) as Hp.
  destruct (Py.split "/" p); [congruence | reflexivity].
Qed.

Lemma endswith_char_cons (a b : ascii) (s : string) (c : ascii) :
  Py.endswith_char (String a (String b s)) c = Py.endswith_char (String b s) c.
Proof. reflexivity. Qed.

(** A text that is not empty and does not end with a slash starts with as
    many slashes after a slash is appended as before. *)
Lemma initial_slashes_trailing_sep (p : string) :
  p <> "" -> Py.endswith_char p "/" = false ->
  OsPath.initial_slashes (p +:+ "/") = OsPath.initial_slashes p.
Proof.
  intros Hne Hend. unfold OsPath.initial_slashes.
  destruct p as [|a [|b [|c p]]]; [congruence| | |].
  - cbn in Hend. rewrite !append_cons, append_nil_l, !startswith_cons.
    cbn [Py.startswith]. rewrite Ascii.eqb_sym, Hend. reflexivity.
  - rewrite endswith_char_cons in Hend. cbn in Hend.
    rewrite !append_cons, append_nil_l, !startswith_cons.
    cbn [Py.startswith].
    rewrite (Ascii.eqb_sym "/" b), Hend, !andb_false_r. reflexivity.
  - rewrite !append_cons, !startswith_cons. cbn [Py.startswith].
    reflexivity.
Qed.

Lemma normpath_trailing_sep (p : string) :
  p <> "" -> Py.endswith_char p "/" = false ->
  OsPath.normpath (p +:+ "/") = OsPath.normpath p.
Proof.
  intros Hne Hend. unfold OsPath.normpath.
  rewrite initial_slashes_trailing_sep by assumption.
  unfold OsPath.sep. rewrite split_trailing_sep, fold_left_app.
  destruct p as [|a p]; [congruence|]. rewrite append_cons.
  reflexivity.
Qed.

End TrailingSlash.

(** X11. A trailing slash does not change the verdict of the path guard
    on an absolute path: the path with one slash appended normalizes to
    the same text. *)
Theorem guard_ignores_trailing_slash (cwd p : string) :
  Py.startswith p "/" = true ->
  Py.endswith_char p "/" = false ->
  OsPath.abspath cwd (p +:+ "/") = OsPath.abspath cwd p
  /\ _is_under_allowed_roots cwd (p +:+ "/") = _is_under_allowed_roots cwd p.
Proof.
  intros Habs Hend.
  assert (Hne : p <> "") by (intros ->; discriminate).
  assert (E : OsPath.abspath cwd (p +:+ "/") = OsPath.abspath cwd p).
  { unfold OsPath.abspath. rewrite Habs.
    destruct p as [|a p]; [congruence|].
    rewrite append_cons, startswith_cons. rewrite startswith_cons in Habs.
    cbn [Py.startswith] in *. rewrite Habs. rewrite <- append_cons.
    now apply normpath_trailing_sep. }
  split; [exact E|]. unfold _is_under_allowed_roots. now rewrite E.
Qed.

Lemma guard_ignores_trailing_slash_witness :
  _is_under_allowed_roots "/srv"
    ("/home/elyvium/projects/ecosystem/elyvium-ecosystem" +:+ "/")
  = _is_under_allowed_roots "/srv"
      "/home/elyvium/projects/ecosystem/elyvium-ecosystem".
Proof.
  apply (proj2 (guard_ignores_trailing_slash "/srv"
                  "/home/elyvium/projects/ecosystem/elyvium-ecosystem"
                  eq_refl eq_refl)).
Defined.

(** X12. An empty directory in a request is judged as the working
    directory of the server: [os.path.abspath] of the empty text is the
    normalized working directory. So the guard admits an empty directory
    exactly when the server itself runs in a directory below the allowed
    root. *)
Theorem guard_judges_empty_path_as_cwd (cwd : string) :
  Py.startswith cwd "/" = true ->
  OsPath.abspath cwd "" = OsPath.normpath cwd
  /\ _is_under_allowed_roots cwd "" = _is_under_allowed_roots cwd cwd
  /\ (forall names,
        cwd = "/home/elyvium/projects/ecosystem/" +:+ Py.join "/" names ->
        names <> [] ->
        Forall (fun n => OsPath.proper_name n = true) names ->
        _is_under_allowed_roots cwd "" = true).
Proof.
  intros Habs.
  assert (E : OsPath.abspath cwd "" = OsPath.normpath cwd).
  { unfold OsPath.abspath, OsPath.join. cbn [Py.startswith].
    destruct cwd as [|a cwd]; [discriminate|].
    change (String a cwd =? "") with false. cbn [orb].
    destruct (Py.endswith_char (String a cwd) OsPath.sep) eqn:Hend.
    - now rewrite append_nil_r.
    - rewrite append_nil_r. now apply normpath_trailing_sep. }
  assert (E2 : _is_under_allowed_roots cwd ""
               = _is_under_allowed_roots cwd cwd).
  { unfold _is_under_allowed_roots. rewrite E.
    unfold OsPath.abspath. now rewrite Habs. }
  split; [exact E|]. split; [exact E2|].
  intros names -> Hne Hall. rewrite E2.
  now apply guard_accepts_descendant.
Qed.

Lemma guard_judges_empty_path_as_cwd_witness :
  _is_under_allowed_roots "/home/elyvium/projects/ecosystem/deploy-tool" ""
  = true
  /\ _is_under_allowed_roots "/srv" "" = _is_under_allowed_roots "/srv" "/srv".
Proof.
  split.
  - apply (proj2 (proj2 (guard_judges_empty_path_as_cwd
                           "/home/elyvium/projects/ecosystem/deploy-tool"
                           eq_refl))
             ["deploy-tool"] eq_refl ltac:(discriminate)
             ltac:(repeat constructor)).
  - apply (proj1 (proj2 (guard_judges_empty_path_as_cwd "/srv" eq_refl))).
Defined.
